(** * TriageController: forecast-and-assemble pipeline

    A shallow embedding of [api/common/controller/TriageController.py].
    Python exceptions become an error sum, the calls to the outside world
    (database, clinic data, model, simulation, stdout) are recorded in a
    trace that is threaded through the controller, and the values of the
    program keep the shapes the source gives them. *)

From Stdlib Require Import ZArith QArith Lia Ascii String.
From stdpp Require Import base option list gmap strings fin_maps.

Open Scope Z_scope.

(** ** Python values *)

(** A Python float is modelled by its exact value: the controller performs
    no floating-point arithmetic, it only stores 0 and 1 and calls [int]. *)
Inductive pyfloat :=
| FFinite (q : Q)
| FNaN
| FInf (negative : bool).

Definition f0 : pyfloat := FFinite (0 # 1).
Definition f1 : pyfloat := FFinite (1 # 1).

(** Rows of the historic referral query; only index 2 is read by the
    controller, as the received date in text form. *)
Record referral := mkReferral {
  ref_clinic_id : Z;
  ref_severity : Z;
  ref_date_received : string
}.

Record triage_class := mkTriageClass {
  tc_name : string;
  tc_severity : Z;
  tc_duration : Z;
  tc_proportion : pyfloat
}.

(** ** Exceptions *)

Inductive error :=
| IndexError
| ValueError
| OverflowError
| NoHistoricYear (start_date : string)
| NoModel (clinic_id : Z) (tc : triage_class)
| Upstream (msg : string).

Inductive result (A : Type) :=
| Ok (a : A)
| Error (e : error).
Arguments Ok {A} a.
Arguments Error {A} e.

Definition rbind {A B} (r : result A) (k : A → result B) : result B :=
  match r with
  | Ok a => k a
  | Error e => Error e
  end.

Declare Scope res_scope.
Delimit Scope res_scope with res.
Notation "'do' x <- r ; k" := (rbind r (fun x => k))
  (at level 10, x name, r at level 100, k at level 200) : res_scope.

(** [int(x)] on a float truncates toward zero and raises on nan and inf. *)
Definition py_int (x : pyfloat) : result Z :=
  match x with
  | FFinite q => Ok (Z.quot (Qnum q) (Z.pos (Qden q)))
  | FNaN => Error ValueError
  | FInf _ => Error OverflowError
  end.

(** [xs[i]] on a list or an array: negative indices count from the end. *)
Definition py_index {A} (xs : list A) (i : Z) : result A :=
  let n := Z.of_nat (length xs) in
  let j := if i <? 0 then i + n else i in
  if (0 <=? j) && (j <? n) then
    match xs !! Z.to_nat j with
    | Some x => Ok x
    | None => Error IndexError
    end
  else Error IndexError.

(** [xs[i] = v] on an array. *)
Definition py_setitem {A} (xs : list A) (i : Z) (v : A) : result (list A) :=
  let n := Z.of_nat (length xs) in
  let j := if i <? 0 then i + n else i in
  if (0 <=? j) && (j <? n) then Ok (<[Z.to_nat j := v]> xs)
  else Error IndexError.

(** [xs[i:]]: a slice never raises; a start beyond either end is clamped. *)
Definition py_slice_from {A} (xs : list A) (i : Z) : list A :=
  let n := Z.of_nat (length xs) in
  let j := if i <? 0 then Z.max 0 (i + n) else i in
  drop (Z.to_nat j) xs.

(** [range(n)] *)
Definition py_range (n : Z) : list nat := seq 0 (Z.to_nat n).

(** ** Calendar dates

    Every [datetime] of the controller comes from [strptime] with the
    format [%Y-%m-%d] and is only moved by whole days, so the time of day
    is always midnight and is left out. *)

Record datetime := mkdate { year : Z; month : Z; day : Z }.

Definition MINYEAR : Z := 1.
Definition MAXYEAR : Z := 9999.

Definition is_leap (y : Z) : bool :=
  (y mod 4 =? 0) && (negb (y mod 100 =? 0) || (y mod 400 =? 0)).

Definition days_in_month (y m : Z) : Z :=
  if m =? 2 then (if is_leap y then 29 else 28)
  else if (m =? 4) || (m =? 6) || (m =? 9) || (m =? 11) then 30
  else 31.

Definition valid_date (d : datetime) : bool :=
  (MINYEAR <=? year d) && (year d <=? MAXYEAR) &&
  (1 <=? month d) && (month d <=? 12) &&
  (1 <=? day d) && (day d <=? days_in_month (year d) (month d)).

(** [d + timedelta(days=1)] *)
Definition next_day (d : datetime) : result datetime :=
  if day d <? days_in_month (year d) (month d) then
    Ok (mkdate (year d) (month d) (day d + 1))
  else if month d <? 12 then Ok (mkdate (year d) (month d + 1) 1)
  else if year d <? MAXYEAR then Ok (mkdate (year d + 1) 1 1)
  else Error OverflowError.

(** [d - timedelta(days=1)] *)
Definition prev_day (d : datetime) : result datetime :=
  if 1 <? day d then Ok (mkdate (year d) (month d) (day d - 1))
  else if 1 <? month d then
    Ok (mkdate (year d) (month d - 1) (days_in_month (year d) (month d - 1)))
  else if MINYEAR <? year d then Ok (mkdate (year d - 1) 12 31)
  else Error OverflowError.

(** [d + timedelta(days=n)] for [n >= 0] *)
Fixpoint add_days (d : datetime) (n : nat) : result datetime :=
  match n with
  | O => Ok d
  | S n' => (do d' <- add_days d n'; next_day d')%res
  end.

(** [d - timedelta(days=n)] for [n >= 0] *)
Fixpoint sub_days (d : datetime) (n : nat) : result datetime :=
  match n with
  | O => Ok d
  | S n' => (do d' <- sub_days d n'; prev_day d')%res
  end.

(** [d.replace(year=y)] *)
Definition replace_year (d : datetime) (y : Z) : result datetime :=
  let d' := mkdate y (month d) (day d) in
  if valid_date d' then Ok d' else Error ValueError.

(** Proleptic Gregorian ordinal, day 1 being 0001-01-01. *)
Definition days_before_year (y : Z) : Z :=
  let p := y - 1 in p * 365 + p / 4 - p / 100 + p / 400.

Definition days_before_month (y m : Z) : Z :=
  foldr (fun k acc => days_in_month y (Z.of_nat k) + acc) 0
        (seq 1 (Z.to_nat (m - 1))).

Definition toordinal (d : datetime) : Z :=
  days_before_year (year d) + days_before_month (year d) (month d) + day d.

(** [(a - b).days] *)
Definition days_between (a b : datetime) : Z := toordinal a - toordinal b.

(** [d.strftime('%Y-%m-%d')] *)
Definition digit (n : Z) : ascii :=
  ascii_of_nat (48 + Z.to_nat (n mod 10)).

Definition pad2 (n : Z) : string :=
  String (digit (n / 10)) (String (digit n) EmptyString).

(** [%Y] as the C library of the deployment prints it: the decimal digits
    of the year without padding, so a year below 1000 has fewer than four
    digits ([999-12-31]); [%m] and [%d] are padded to two digits. *)
Definition year_text (y : Z) : string :=
  if y <? 10 then String (digit y) EmptyString
  else if y <? 100 then pad2 y
  else if y <? 1000 then String (digit (y / 100)) (pad2 y)
  else String (digit (y / 1000)) (String (digit (y / 100)) (pad2 y)).

Definition strftime (d : datetime) : string :=
  year_text (year d) +:+ "-" +:+ pad2 (month d) +:+ "-" +:+ pad2 (day d).

Definition date_ltb (a b : datetime) : bool :=
  (year a <? year b) ||
  ((year a =? year b) &&
   ((month a <? month b) || ((month a =? month b) && (day a <? day b)))).

(** ** Calls to the outside world *)

(** What a collaborator outside this file gives back: a value, or the
    message of the exception it raised. *)
Inductive external (A : Type) :=
| Returned (a : A)
| Raised (msg : string).
Arguments Returned {A} a.
Arguments Raised {A} msg.

(** A loaded Keras model, seen through [model.predict([window, calendar])]:
    the batch of output rows for a batch of one input. *)
Definition Model : Type := list Z → list pyfloat → external (list (list pyfloat)).

(** Entries of the series handed to the simulation: the padding and the
    sentinel are Python lists of ints, the forecasts are the arrays the
    model returned. *)
Inductive entry :=
| PyList (xs : list Z)
| NdArray (xs : list pyfloat).

Record DataFrame := mkDataFrame {
  df_intervals : list (string * string);
  df_data : list entry;
  df_padding : Z * Z
}.

Record sim_request := mkSimRequest {
  sim_data_frame : DataFrame;
  sim_window : Z;
  sim_min_ratio : pyfloat;
  sim_final_window : Z;
  sim_confidence : pyfloat;
  sim_start : Z;
  sim_end : Z;
  sim_num_sim_runs : Z;
  sim_queue : list Z
}.

Record SimulationResults := mkSimulationResults { expected_slots : Z }.

Record slot_record := mkSlotRecord {
  slots : Z;
  start_date : string;
  end_date : string
}.

Inductive event :=
| EvSelectYear (m d : Z)
| EvClinicData (clinic_id : Z)
| EvReferralData (severity : Z) (interval : datetime * datetime)
| EvSelectModel (clinic_id severity : Z)
| EvLoadModel (file_path : string)
| EvModelPredict (window : list Z) (calendar : list pyfloat)
| EvSimulate (req : sim_request)
| EvPrint (response : gmap string (list slot_record)).

(** The controller's effects: an exception aborts the run, and every call
    that leaves the controller is appended to the trace. *)
Definition M (A : Type) : Type := list event → list event * result A.

Definition ret {A} (a : A) : M A := fun t => (t, Ok a).
Definition raise {A} (e : error) : M A := fun t => (t, Error e).
Definition lift {A} (r : result A) : M A := fun t => (t, r).

Definition bind {A B} (m : M A) (k : A → M B) : M B :=
  fun t =>
    match m t with
    | (t', Ok a) => k a t'
    | (t', Error e) => (t', Error e)
    end.

Definition call {A} (ev : event) (r : external A) : M A :=
  fun t =>
    (t ++ [ev],
     match r with
     | Returned a => Ok a
     | Raised msg => Error (Upstream msg)
     end).

Declare Scope ctl_scope.
Delimit Scope ctl_scope with ctl.
Notation "'do' x <- m ; k" := (bind m (fun x => k))
  (at level 10, x name, m at level 100, k at level 200) : ctl_scope.

(** [for x in xs: s = body(s, x)] *)
Fixpoint for_each {A S} (body : S → A → M S) (xs : list A) (s : S) : M S :=
  match xs with
  | [] => ret s
  | x :: xs' => (do s' <- body s x; for_each body xs' s')%ctl
  end.

(** [[f(x) for x in xs]] where [f] may raise *)
Fixpoint res_map {A B} (f : A → result B) (xs : list A) : result (list B) :=
  match xs with
  | [] => Ok []
  | x :: xs' => (do y <- f x; do ys <- res_map f xs'; Ok (y :: ys))%res
  end.

(** ** The controller *)

Definition ML_PADDING_LENGTH : Z := 30.
Definition SIM_PADDING_LENGTH : Z := 7.

Record TriageController := mkTriageController {
  clinic_id : Z;
  intervals : list (string * string);
  confidence : pyfloat;
  num_sim_runs : Z
}.

(** [collections.Counter(keys)] *)
Definition Counter (keys : list string) : gmap string Z :=
  foldl (fun m k => <[k := default 0 (m !! k) + 1]> m) ∅ keys.

Definition sort_referral_data (referral_data : list referral)
    (start_date : datetime) (interval_length : Z) : result (list Z) :=
  (do date_list <-
      res_map (fun offset => do d <- add_days start_date offset; Ok (strftime d))
              (py_range interval_length);
   let counted_data := Counter (map ref_date_received referral_data) in
   Ok (map (fun date => match counted_data !! date with
                        | Some c => c
                        | None => 0
                        end) date_list))%res.

Definition np_zeros (n : Z) : list pyfloat := replicate (Z.to_nat n) f0.

(** Lines 184-186: the calendar feature of one forecast day. *)
Definition one_hot_date (date : datetime) : result (list pyfloat) :=
  (do a <- py_setitem (np_zeros (12 + 31)) (month date) f1;
   py_setitem a (12 + day date) f1)%res.

Record forecast_state := mkForecastState {
  predictions : list (list pyfloat);
  data : list Z
}.

(** One pass through the body of the loop of [get_predictions]. *)
Definition forecast_step (model : Model) (start_date : datetime)
    (st : forecast_state) (offset : nat) : M forecast_state :=
  (do date <- lift (add_days start_date offset);
   do one_hot <- lift (one_hot_date date);
   do prediction <- call (EvModelPredict (data st) one_hot)
                         (model (data st) one_hot);
   do row <- lift (py_index prediction 0);
   do x <- lift (py_index row 0);
   do n <- lift (py_int x);
   ret {| predictions := predictions st ++ [row];
          data := py_slice_from (data st) 1 ++ [n] |})%ctl.

(** The loop of [get_predictions], kept apart so that the state between
    two passes can be named. *)
Definition forecast_loop (model : Model) (start_date : datetime)
    (offsets : list nat) (st : forecast_state) : M forecast_state :=
  for_each (forecast_step model start_date) offsets st.

Definition get_predictions (model : Model) (data0 : list Z)
    (start_date : datetime) (prediction_length : Z) : M (list (list pyfloat)) :=
  (do st <- forecast_loop model start_date (py_range prediction_length)
                          {| predictions := []; data := data0 |};
   ret (predictions st))%ctl.

(** Rows of [triagedata.models]. *)
Record model_row := mkModelRow {
  mr_clinic_id : Z;
  mr_severity : Z;
  mr_in_use : bool;
  mr_file_path : string
}.

(** The query of [get_model]: the file paths of the rows whose clinic,
    severity and in-use flag match, one result row per table row. *)
Definition select_model_paths (models : list model_row)
    (clinic severity : Z) (in_use : bool) : list (list string) :=
  map (fun r => [mr_file_path r])
      (filter (fun r => mr_clinic_id r = clinic ∧ mr_severity r = severity
                        ∧ mr_in_use r = in_use) models).

Definition latest (ds : list datetime) : option datetime :=
  foldr (fun d acc => match acc with
                      | Some b => if date_ltb b d then Some d else Some b
                      | None => Some d
                      end) None ds.

(** The query of [get_historic_data_year]: the year of the most recent
    received date with the given month and a day not before the given
    day; at most one row. *)
Definition select_historic_year (historicdata : list datetime)
    (m d : Z) : list (list Z) :=
  match latest (filter (fun r => month r = m ∧ d ≤ day r) historicdata) with
  | Some r => [[year r]]
  | None => []
  end.

Section Controller.
(** [datetime.strptime(s, '%Y-%m-%d')] *)
Variable strptime : string → result datetime.
(** The two tables behind [DataBase.select]. *)
Variable historicdata : list datetime.
Variable models : list model_row.
(** [ClinicData(clinic_id).clinic_settings] and
    [ClinicData(clinic_id).get_referral_data(severity, interval)] *)
Variable clinic_settings : Z → external (list triage_class).
Variable get_referral_data :
  Z → Z → datetime * datetime → external (list referral).
(** [tf.keras.models.load_model(path, ...)] *)
Variable load_model : string → external Model.
(** [sim.resources.minintervalschedule.gen_min_interval_slots] *)
Variable gen_min_interval_slots :
  sim_request → external (list SimulationResults).

Definition get_historic_data_year (start_date : string) : M Z :=
  (do d1 <- lift (strptime start_date);
   do d2 <- lift (strptime start_date);
   do rows <- call (EvSelectYear (month d1) (day d2))
                   (Returned (select_historic_year historicdata
                                                   (month d1) (day d2)));
   if bool_decide (length rows ≠ 1%nat) then raise (NoHistoricYear start_date)
   else
     do row <- lift (py_index rows 0);
     lift (py_index row 0))%ctl.

Definition get_model (clinic : Z) (tc : triage_class) : M Model :=
  (do rows <- call (EvSelectModel clinic (tc_severity tc))
                   (Returned (select_model_paths models clinic
                                                 (tc_severity tc) true));
   if bool_decide (length rows = 0%nat) then raise (NoModel clinic tc)
   else
     do row <- lift (py_index rows 0);
     do file_path <- lift (py_index row 0);
     call (EvLoadModel file_path) (load_model file_path))%ctl.

(** Lines 100-101: the series handed to the simulation. *)
Definition padding_of (sorted_referral_data : list Z) : list entry :=
  map (fun arrivals => PyList [arrivals; 0])
      (py_slice_from sorted_referral_data (- SIM_PADDING_LENGTH)).

Definition data_frame_data (sorted_referral_data : list Z)
    (preds : list (list pyfloat)) : list entry :=
  padding_of sorted_referral_data ++ map NdArray preds ++ [PyList [0; 0]].

(** Line 102: the frame and its boundary tag. *)
Definition build_data_frame (self : TriageController)
    (sorted_referral_data : list Z) (preds : list (list pyfloat)) : DataFrame :=
  mkDataFrame (intervals self)
              (data_frame_data sorted_referral_data preds)
              (SIM_PADDING_LENGTH, 0).

(** What lines 71-80 of [predict] compute before the loop. *)
Record horizon := mkHorizon {
  prediction_start_date : datetime;
  prediction_interval_length : Z;
  historic_data_interval_length : Z;
  historic_data_interval : datetime * datetime
}.

Definition predict_horizon (self : TriageController) : M horizon :=
  (do first <- lift (py_index (intervals self) 0);
   do start <- lift (strptime (fst first));
   do last <- lift (py_index (intervals self) (-1));
   do stop <- lift (strptime (snd last));
   let interval_length := days_between stop start + 1 in
   let historic_length := Z.max ML_PADDING_LENGTH SIM_PADDING_LENGTH in
   do first' <- lift (py_index (intervals self) 0);
   do desired_historic_data_year <- get_historic_data_year (fst first');
   do first'' <- lift (py_index (intervals self) 0);
   do d <- lift (strptime (fst first''));
   do historic_data_end_date <- lift (replace_year d desired_historic_data_year);
   do historic_data_start_date <-
      lift (sub_days historic_data_end_date (Z.to_nat historic_length));
   ret {| prediction_start_date := start;
          prediction_interval_length := interval_length;
          historic_data_interval_length := historic_length;
          historic_data_interval :=
            (historic_data_start_date, historic_data_end_date) |})%ctl.

(** The body of the loop over the triage classes (lines 87-121). *)
Definition predict_class (self : TriageController) (h : horizon)
    (response : gmap string (list slot_record)) (tc : triage_class)
    : M (gmap string (list slot_record)) :=
  (do historic_data <-
      call (EvReferralData (tc_severity tc) (historic_data_interval h))
           (get_referral_data (clinic_id self) (tc_severity tc)
                              (historic_data_interval h));
   do sorted_referral_data <-
      lift (sort_referral_data historic_data
                               (fst (historic_data_interval h))
                               (historic_data_interval_length h));
   do model <- get_model (clinic_id self) tc;
   do preds <-
      get_predictions model
                      (py_slice_from sorted_referral_data (- ML_PADDING_LENGTH))
                      (prediction_start_date h)
                      (prediction_interval_length h);
   let data_frame := build_data_frame self sorted_referral_data preds in
   let req :=
     {| sim_data_frame := data_frame;
        sim_window := tc_duration tc * 7;
        sim_min_ratio := tc_proportion tc;
        sim_final_window := tc_duration tc * 14;
        sim_confidence := confidence self;
        sim_start := 0;
        sim_end := Z.of_nat (length (intervals self)) - 1;
        sim_num_sim_runs := num_sim_runs self;
        sim_queue := [] |} in
   do sim_results <- call (EvSimulate req) (gen_min_interval_slots req);
   let sim_result_formatted :=
     map (fun sim_result =>
            {| slots := expected_slots (fst sim_result);
               start_date := fst (snd sim_result);
               end_date := snd (snd sim_result) |})
         (zip sim_results (intervals self)) in
   let response' := <[tc_name tc := sim_result_formatted]> response in
   do _ <- call (EvPrint response') (Returned tt);
   ret response')%ctl.

Definition predict (self : TriageController)
    : M (gmap string (list slot_record)) :=
  (do h <- predict_horizon self;
   do settings <- call (EvClinicData (clinic_id self))
                       (clinic_settings (clinic_id self));
   for_each (predict_class self h) settings ∅)%ctl.

End Controller.

(** ** Vocabulary of the statements *)

(** [sum(xs)] *)
Definition py_sum (xs : list Z) : Z := foldr Z.add 0 xs.

(** How many referrals carry the received date [key]. *)
Definition events_on (key : string) (referral_data : list referral) : Z :=
  Z.of_nat (length (filter (fun r => ref_date_received r = key) referral_data)).

(** The days [start, start + L) of a window, as the text [strftime] gives. *)
Definition window_keys (start : datetime) (L : Z) : list string :=
  omap (fun offset => match add_days start offset with
                      | Ok d => Some (strftime d)
                      | Error _ => None
                      end) (py_range L).

(** Strict chronological order on dates. *)
Definition date_lt (a b : datetime) : Prop :=
  year a < year b ∨
  (year a = year b ∧ (month a < month b ∨ (month a = month b ∧ day a < day b))).

(** One update of [Counter]. *)
Definition count_step (m : gmap string Z) (k : string) : gmap string Z :=
  <[k := default 0 (m !! k) + 1]> m.

(** The calendar feature of the forecast day at [offset]. *)
Definition calendar_of (start : datetime) (offset : nat) : result (list pyfloat) :=
  (do date <- add_days start offset; one_hot_date date)%res.

(** What the loop reads off a model output: the row it records and the
    count it feeds back. *)
Definition read_prediction (prediction : list (list pyfloat))
    : result (list pyfloat * Z) :=
  (do row <- py_index prediction 0;
   do x <- py_index row 0;
   do n <- py_int x;
   Ok (row, n))%res.

(** Big-step reading of the forecast loop: from a state and the offsets
    still to run, the model calls it makes and how it ends. *)
Inductive loop_obs (model : Model) (start : datetime) :
    list nat → forecast_state → list event → result forecast_state → Prop :=
| obs_done st :
    loop_obs model start [] st [] (Ok st)
| obs_no_calendar k ks st e :
    calendar_of start k = Error e →
    loop_obs model start (k :: ks) st [] (Error e)
| obs_model_raised k ks st oh msg :
    calendar_of start k = Ok oh →
    model (data st) oh = Raised msg →
    loop_obs model start (k :: ks) st
             [EvModelPredict (data st) oh] (Error (Upstream msg))
| obs_bad_prediction k ks st oh out e :
    calendar_of start k = Ok oh →
    model (data st) oh = Returned out →
    read_prediction out = Error e →
    loop_obs model start (k :: ks) st [EvModelPredict (data st) oh] (Error e)
| obs_step k ks st oh out row n evs r :
    calendar_of start k = Ok oh →
    model (data st) oh = Returned out →
    read_prediction out = Ok (row, n) →
    loop_obs model start ks
             {| predictions := predictions st ++ [row];
                data := drop 1 (data st) ++ [n] |} evs r →
    loop_obs model start (k :: ks) st (EvModelPredict (data st) oh :: evs) r.

(** Whether an entry of the series is a pair whose second component is 0. *)
Definition has_zero_flag (e : entry) : bool :=
  match e with
  | PyList [_; b] => b =? 0
  | NdArray [_; FFinite q] => Qeq_bool q (0 # 1)
  | _ => false
  end.

(** ** Concrete inputs used by the examples *)

(** A stub model with two output channels: half the sum of the window,
    and a constant 9. *)
Definition stub_model : Model :=
  fun window _ => Returned [[FFinite (py_sum window # 2); FFinite (9 # 1)]].

(** The vector with ones at positions [i] and [j] of 43. *)
Definition two_hot (i j : nat) : list pyfloat :=
  <[j := f1]> (<[i := f1]> (np_zeros 43)).

(** Seven days of historic counts. *)
Definition stub_week : list Z := [5; 0; 1; 0; 0; 2; 0].

Definition stub_strptime (s : string) : result datetime :=
  if decide (s = "2021-03-01"%string) then Ok (mkdate 2021 3 1)
  else if decide (s = "2021-03-03"%string) then Ok (mkdate 2021 3 3)
  else Error ValueError.

Definition class_a : triage_class := mkTriageClass "urgent" 1 2 (FFinite (9 # 10)).
Definition class_b : triage_class := mkTriageClass "routine" 2 4 (FFinite (8 # 10)).
Definition class_c : triage_class := mkTriageClass "elective" 3 6 (FFinite (7 # 10)).

Definition stub_historicdata : list datetime :=
  [mkdate 2019 3 20; mkdate 2020 3 15; mkdate 2020 7 1].

Definition stub_models : list model_row :=
  [mkModelRow 1 1 true "urgent.h5"; mkModelRow 1 2 false "routine.h5";
   mkModelRow 1 3 true "elective.h5"].

Definition twin_models : list model_row :=
  [mkModelRow 1 1 true "first.h5"; mkModelRow 1 1 true "second.h5"].

Definition stub_settings (clinic : Z) : external (list triage_class) :=
  Returned [class_a; class_b; class_c].

Definition stub_referrals (clinic severity : Z) (interval : datetime * datetime)
    : external (list referral) :=
  Returned [mkReferral clinic severity "2020-02-28";
            mkReferral clinic severity "2020-02-28";
            mkReferral clinic severity "2020-02-25"].

Definition stub_loader (file_path : string) : external Model :=
  Returned stub_model.

Definition stub_simulation (req : sim_request) : external (list SimulationResults) :=
  Returned [mkSimulationResults 4].

Definition stub_controller : TriageController :=
  mkTriageController 1 [("2021-03-01"%string, "2021-03-03"%string)]
                     (FFinite (95 # 100)) 10.

(** A window start and four referrals for it. *)
Definition jan : datetime := mkdate 2021 1 1.
Definition refs3 : list referral :=
  [mkReferral 1 1 "2021-01-02"; mkReferral 1 1 "2021-01-02";
   mkReferral 1 1 "2021-01-04"; mkReferral 1 1 "2021-01-06"].

(** The two model calls of a two-day forecast from 1 March 2021 with the
    stub model and the seed [1, 2, 4]. *)
Definition stub_calls : list event :=
  [EvModelPredict [1; 2; 4] (two_hot 3 13);
   EvModelPredict [2; 4; 3] (two_hot 3 14)].

(** A model whose every call raises. *)
Definition raising_model : Model := fun _ _ => Raised "resource exhausted".

(** What lines 71-80 give for the stub controller. *)
Definition stub_horizon : horizon :=
  {| prediction_start_date := mkdate 2021 3 1;
     prediction_interval_length := 3;
     historic_data_interval_length := 30;
     historic_data_interval := (mkdate 2020 1 31, mkdate 2020 3 1) |}.

(** The kinds of calls a run makes, for counting them in a trace. *)
Inductive event_kind :=
| KSelectYear | KClinicData | KReferralData | KSelectModel
| KLoadModel | KModelPredict | KSimulate | KPrint.

Definition kind_of (e : event) : event_kind :=
  match e with
  | EvSelectYear _ _ => KSelectYear
  | EvClinicData _ => KClinicData
  | EvReferralData _ _ => KReferralData
  | EvSelectModel _ _ => KSelectModel
  | EvLoadModel _ => KLoadModel
  | EvModelPredict _ _ => KModelPredict
  | EvSimulate _ => KSimulate
  | EvPrint _ => KPrint
  end.

Definition kind_eqb (a b : event_kind) : bool :=
  match a, b with
  | KSelectYear, KSelectYear | KClinicData, KClinicData
  | KReferralData, KReferralData | KSelectModel, KSelectModel
  | KLoadModel, KLoadModel | KModelPredict, KModelPredict
  | KSimulate, KSimulate | KPrint, KPrint => true
  | _, _ => false
  end.

Fixpoint count_kind (k : event_kind) (evs : list event) : nat :=
  match evs with
  | [] => 0
  | e :: evs' => (if kind_eqb (kind_of e) k then 1 else 0) + count_kind k evs'
  end.

(** The request of lines 105-114 and the records of lines 115-118. *)
Definition sim_request_of (self : TriageController) (tc : triage_class)
    (sorted_referral_data : list Z) (preds : list (list pyfloat)) : sim_request :=
  {| sim_data_frame := build_data_frame self sorted_referral_data preds;
     sim_window := tc_duration tc * 7;
     sim_min_ratio := tc_proportion tc;
     sim_final_window := tc_duration tc * 14;
     sim_confidence := confidence self;
     sim_start := 0;
     sim_end := Z.of_nat (length (intervals self)) - 1;
     sim_num_sim_runs := num_sim_runs self;
     sim_queue := [] |}.

Definition format_results (sim_results : list SimulationResults)
    (ivs : list (string * string)) : list slot_record :=
  map (fun sim_result =>
         {| slots := expected_slots (fst sim_result);
            start_date := fst (snd sim_result);
            end_date := snd (snd sim_result) |})
      (zip sim_results ivs).

(** A registry where every class of the stub clinic has a model in use,
    and the run of the stub controller against it. *)
Definition ready_models : list model_row :=
  [mkModelRow 1 1 true "urgent.h5"; mkModelRow 1 2 true "routine.h5";
   mkModelRow 1 3 true "elective.h5"].

Definition ready_run : list event * result (gmap string (list slot_record)) :=
  predict stub_strptime stub_historicdata ready_models stub_settings
          stub_referrals stub_loader stub_simulation stub_controller [].

Definition ready_response : gmap string (list slot_record) :=
  match snd ready_run with
  | Ok response => response
  | Error _ => ∅
  end.

(** The first class of that run on its own. *)
Definition class_a_run : list event * result (gmap string (list slot_record)) :=
  predict_class ready_models stub_referrals stub_loader stub_simulation
                stub_controller stub_horizon ∅ class_a
                [EvSelectYear 3 1; EvClinicData 1].

Definition class_a_response : gmap string (list slot_record) :=
  match snd class_a_run with
  | Ok response => response
  | Error _ => ∅
  end.

(** * Properties *)

Example strftime_ex : strftime (mkdate 2021 3 7) = "2021-03-07"%string.
Proof. reflexivity. Qed.

Example add_days_ex : add_days (mkdate 2020 2 28) 2 = Ok (mkdate 2020 3 1).
Proof. reflexivity. Qed.

Example days_between_ex :
  days_between (mkdate 2021 3 1) (mkdate 2020 2 28) = 367.
Proof. reflexivity. Qed.

(** ** Dates *)

Lemma days_in_month_bounds y m : 28 ≤ days_in_month y m ≤ 31.
Proof.
  unfold days_in_month.
  repeat match goal with |- context [if ?b then _ else _] => destruct b end; lia.
Qed.

Lemma valid_date_spec d :
  valid_date d = true ↔
  MINYEAR ≤ year d ≤ MAXYEAR ∧ 1 ≤ month d ≤ 12 ∧
  1 ≤ day d ≤ days_in_month (year d) (month d).
Proof.
  unfold valid_date. rewrite !andb_true_iff, !Z.leb_le. tauto.
Qed.


Lemma date_lt_trans a b c : date_lt a b → date_lt b c → date_lt a c.
Proof. unfold date_lt. lia. Qed.

Lemma date_lt_irrefl a : ¬ date_lt a a.
Proof. unfold date_lt. lia. Qed.

Lemma next_day_lt d d' : next_day d = Ok d' → date_lt d d'.
Proof.
  unfold next_day, date_lt.
  destruct (Z.ltb_spec (day d) (days_in_month (year d) (month d))).
  { intros [= <-]. simpl. lia. }
  destruct (Z.ltb_spec (month d) 12).
  { intros [= <-]. simpl. lia. }
  destruct (Z.ltb_spec (year d) MAXYEAR); [|discriminate].
  intros [= <-]. simpl. lia.
Qed.

Lemma next_day_valid d d' :
  valid_date d = true → next_day d = Ok d' → valid_date d' = true.
Proof.
  rewrite !valid_date_spec. unfold next_day, MINYEAR, MAXYEAR.
  intros (Hy & Hm & Hd).
  destruct (Z.ltb_spec (day d) (days_in_month (year d) (month d))).
  { intros [= <-]. simpl. lia. }
  destruct (Z.ltb_spec (month d) 12).
  { intros [= <-]. simpl. pose proof (days_in_month_bounds (year d) (month d + 1)). lia. }
  destruct (Z.ltb_spec (year d) 9999); [|discriminate].
  intros [= <-]. simpl. pose proof (days_in_month_bounds (year d + 1) 1). lia.
Qed.

Lemma add_days_S d n : add_days d (S n) = rbind (add_days d n) next_day.
Proof. reflexivity. Qed.

Lemma add_days_ok_le d n m dn :
  (m ≤ n)%nat → add_days d n = Ok dn → ∃ dm, add_days d m = Ok dm.
Proof.
  intros Hle. revert dn. induction Hle as [|n Hle IH]; intros dn Hn; [eauto|].
  rewrite add_days_S in Hn. destruct (add_days d n) as [x|e] eqn:E; [|discriminate].
  eauto.
Qed.

Lemma add_days_valid d n dn :
  valid_date d = true → add_days d n = Ok dn → valid_date dn = true.
Proof.
  intros Hv. revert dn. induction n as [|n IH]; intros dn.
  - intros [= <-]. done.
  - rewrite add_days_S. destruct (add_days d n) as [x|e]; [|discriminate].
    simpl. intros Hn. eapply next_day_valid; [|exact Hn]. by apply IH.
Qed.

Lemma add_days_lt d m n dm dn :
  (m < n)%nat → add_days d m = Ok dm → add_days d n = Ok dn → date_lt dm dn.
Proof.
  intros Hlt Hm. revert dn. induction Hlt as [|n Hlt IH]; intros dn.
  - rewrite add_days_S, Hm. simpl. apply next_day_lt.
  - rewrite add_days_S. destruct (add_days d n) as [x|e]; [|discriminate].
    simpl. intros Hn. eapply date_lt_trans; [by apply IH|]. by apply next_day_lt.
Qed.

(** Formatting *)

Lemma digit_inj a b : digit a = digit b → a mod 10 = b mod 10.
Proof.
  unfold digit. intros H.
  apply (f_equal nat_of_ascii) in H.
  rewrite !nat_ascii_embedding in H.
  - pose proof (Z.mod_pos_bound a 10). pose proof (Z.mod_pos_bound b 10). lia.
  - pose proof (Z.mod_pos_bound b 10). lia.
  - pose proof (Z.mod_pos_bound a 10). lia.
Qed.

Lemma div_1000 a : a / 1000 = a / 10 / 10 / 10.
Proof. rewrite !Z.div_div by lia. reflexivity. Qed.

Lemma div_100 a : a / 100 = a / 10 / 10.
Proof. rewrite !Z.div_div by lia. reflexivity. Qed.

Lemma digit_not_dash n : digit n ≠ "-"%char.
Proof.
  unfold digit. intros H. apply (f_equal nat_of_ascii) in H.
  rewrite nat_ascii_embedding in H.
  - change (nat_of_ascii "-"%char) with 45%nat in H. lia.
  - pose proof (Z.mod_pos_bound n 10). lia.
Qed.

Lemma strftime_fields_inj ya ma da yb mb db :
  1 ≤ ya ≤ 9999 → 1 ≤ yb ≤ 9999 →
  1 ≤ ma ≤ 12 → 1 ≤ mb ≤ 12 → 1 ≤ da ≤ 31 → 1 ≤ db ≤ 31 →
  strftime (mkdate ya ma da) = strftime (mkdate yb mb db) →
  ya = yb ∧ ma = mb ∧ da = db.
Proof.
  intros Hya Hyb Hma Hmb Hda Hdb.
  unfold strftime, year_text, pad2. cbn [year month day].
  destruct (Z.ltb_spec ya 10), (Z.ltb_spec ya 100), (Z.ltb_spec ya 1000); try lia;
  destruct (Z.ltb_spec yb 10), (Z.ltb_spec yb 100), (Z.ltb_spec yb 1000); try lia;
  cbn [String.append]; intros Heq; injection Heq as Heq;
  repeat match goal with
  | H : digit _ = "-"%char |- _ => by apply digit_not_dash in H
  | H : "-"%char = digit _ |- _ => symmetry in H; by apply digit_not_dash in H
  | H : String _ _ = String _ _ |- _ => injection H as H
  | H : digit _ = digit _ |- _ => apply digit_inj in H
  end;
  rewrite ?div_1000, ?div_100 in *;
  repeat split; Z.to_euclidean_division_equations; lia.
Qed.

Lemma strftime_inj a b :
  valid_date a = true → valid_date b = true →
  strftime a = strftime b → a = b.
Proof.
  rewrite !valid_date_spec. unfold MINYEAR, MAXYEAR.
  intros (Hya & Hma & Hda) (Hyb & Hmb & Hdb).
  pose proof (days_in_month_bounds (year a) (month a)).
  pose proof (days_in_month_bounds (year b) (month b)).
  destruct a as [ya ma da], b as [yb mb db]. cbn [year month day] in *.
  intros Heq. apply strftime_fields_inj in Heq as (-> & -> & ->); [done|lia..].
Qed.

Lemma res_map_lookup {A B} (f : A → result B) xs ys :
  res_map f xs = Ok ys →
  length ys = length xs ∧ ∀ i x, xs !! i = Some x → ∃ y, f x = Ok y ∧ ys !! i = Some y.
Proof.
  revert ys. induction xs as [|x xs IH]; intros ys; simpl.
  - intros [= <-]. split; [done|]. intros i x. rewrite lookup_nil. done.
  - destruct (f x) as [y|e] eqn:Hx; [|discriminate]. simpl.
    destruct (res_map f xs) as [ys'|e]; [|discriminate]. simpl.
    intros [= <-]. destruct (IH ys' eq_refl) as [Hlen Hi].
    split; [simpl; lia|].
    intros [|i] x'; simpl; [intros [= <-]; eauto|apply Hi].
Qed.

(** Counter *)


Lemma Counter_acc ks (m : gmap string Z) k :
  default 0 (foldl count_step m ks !! k) =
  default 0 (m !! k) + Z.of_nat (length (filter (fun x => x = k) ks)).
Proof.
  revert m. induction ks as [|x ks IH]; intros m; simpl; [lia|].
  rewrite IH. unfold count_step.
  rewrite filter_cons. destruct (decide (x = k)) as [->|Hne].
  - rewrite lookup_insert_eq. simpl. lia.
  - rewrite lookup_insert_ne by done. lia.
Qed.

Lemma Counter_lookup ks k :
  match Counter ks !! k with Some c => c | None => 0 end =
  Z.of_nat (length (filter (fun x => x = k) ks)).
Proof.
  change (default 0 (Counter ks !! k) = Z.of_nat (length (filter (fun x => x = k) ks))).
  unfold Counter. change (fun m k0 => <[k0 := default 0 (m !! k0) + 1]> m) with count_step.
  rewrite Counter_acc, lookup_empty. simpl. lia.
Qed.

Lemma events_on_keys key refs :
  events_on key refs =
  Z.of_nat (length (filter (fun x => x = key) (map ref_date_received refs))).
Proof.
  unfold events_on. f_equal.
  induction refs as [|r refs IH]; [done|].
  rewrite fmap_cons, !filter_cons.
  destruct (decide (ref_date_received r = key)); simpl; by rewrite IH.
Qed.

Lemma events_on_cons key r refs :
  events_on key (r :: refs) =
  (if decide (ref_date_received r = key) then 1 else 0) + events_on key refs.
Proof.
  unfold events_on. rewrite filter_cons.
  destruct (decide (ref_date_received r = key)); simpl length; lia.
Qed.

Lemma py_sum_indicator (x : string) keys :
  NoDup keys →
  py_sum (map (fun k => if decide (x = k) then 1 else 0) keys) =
  if decide (x ∈ keys) then 1 else 0.
Proof.
  induction 1 as [|k keys Hk Hnd IH]; simpl.
  - destruct (decide (x ∈ [])) as [Hin|]; [by apply elem_of_nil in Hin|done].
  - rewrite IH. destruct (decide (x = k)) as [->|Hne].
    + destruct (decide (k ∈ keys)); [done|].
      destruct (decide (k ∈ k :: keys)) as [|Hn]; [done|]. exfalso. apply Hn. left.
    + destruct (decide (x ∈ keys)) as [Hin|Hnin].
      * destruct (decide (x ∈ k :: keys)) as [|Hn]; [done|]. exfalso. apply Hn. by right.
      * destruct (decide (x ∈ k :: keys)) as [Hin|]; [|done].
        apply elem_of_cons in Hin as [?|?]; done.
Qed.

Lemma py_sum_add (f g : string → Z) keys :
  py_sum (map (fun k => f k + g k) keys) = py_sum (map f keys) + py_sum (map g keys).
Proof. induction keys as [|k keys IH]; simpl; lia. Qed.

Lemma py_sum_events keys refs :
  NoDup keys →
  py_sum (map (fun k => events_on k refs) keys) =
  Z.of_nat (length (filter (fun r => ref_date_received r ∈ keys) refs)).
Proof.
  intros Hnd. induction refs as [|r refs IH].
  - simpl. induction keys; simpl; [done|]. inversion Hnd; subst. unfold events_on at 1. simpl. auto.
  - rewrite (map_ext _ _ (fun k => events_on_cons k r refs)).
    rewrite py_sum_add, IH, py_sum_indicator by done.
    rewrite filter_cons.
    destruct (decide (ref_date_received r ∈ keys)); simpl length; lia.
Qed.

Lemma py_range_lookup L i : (i < Z.to_nat L)%nat → py_range L !! i = Some i.
Proof. intros Hi. unfold py_range. by rewrite lookup_seq_lt. Qed.

Lemma py_range_elem L k : k ∈ py_range L → (k < Z.to_nat L)%nat.
Proof. unfold py_range. rewrite elem_of_seq. lia. Qed.

Lemma date_list_window start offs :
  (∀ k, k ∈ offs → ∃ d, add_days start k = Ok d) →
  res_map (fun offset => (do d <- add_days start offset; Ok (strftime d))%res) offs =
  Ok (omap (fun offset => match add_days start offset with
                          | Ok d => Some (strftime d)
                          | Error _ => None
                          end) offs).
Proof.
  induction offs as [|k offs IH]; intros Hall; simpl; [done|].
  destruct (Hall k) as [d Hd]; [left|]. rewrite Hd. simpl.
  rewrite IH; [done|]. intros; apply Hall; by right.
Qed.

Lemma window_in_range start L dlast :
  add_days start (Z.to_nat L - 1) = Ok dlast →
  ∀ k, k ∈ py_range L → ∃ d, add_days start k = Ok d.
Proof.
  intros Hlast k Hk%py_range_elem.
  apply (add_days_ok_le start (Z.to_nat L - 1) k dlast); [lia|done].
Qed.

Lemma date_list_ok start L dlast :
  add_days start (Z.to_nat L - 1) = Ok dlast →
  res_map (fun offset => (do d <- add_days start offset; Ok (strftime d))%res)
          (py_range L) = Ok (window_keys start L).
Proof. intros H. apply date_list_window. by eapply window_in_range. Qed.

Lemma window_keys_lookup start L dlast :
  add_days start (Z.to_nat L - 1) = Ok dlast →
  length (window_keys start L) = Z.to_nat L ∧
  ∀ i, (i < Z.to_nat L)%nat →
    ∃ d, add_days start i = Ok d ∧ window_keys start L !! i = Some (strftime d).
Proof.
  intros Hlast. pose proof (date_list_ok _ _ _ Hlast) as Hmap.
  apply res_map_lookup in Hmap as [Hlen Hi]. split.
  - rewrite Hlen. unfold py_range. by rewrite length_seq.
  - intros i Hlt. destruct (Hi i i (py_range_lookup _ _ Hlt)) as (y & Hy & Hl).
    destruct (add_days start i) as [d|e]; [|discriminate].
    injection Hy as <-. eauto.
Qed.

Lemma window_keys_NoDup start L dlast :
  valid_date start = true →
  add_days start (Z.to_nat L - 1) = Ok dlast →
  NoDup (window_keys start L).
Proof.
  intros Hv Hlast. destruct (window_keys_lookup _ _ _ Hlast) as [Hlen Hlk].
  apply NoDup_alt. intros i j x Hi Hj.
  assert (i < Z.to_nat L)%nat as Hil by (rewrite <- Hlen; by eapply lookup_lt_Some).
  assert (j < Z.to_nat L)%nat as Hjl by (rewrite <- Hlen; by eapply lookup_lt_Some).
  destruct (Hlk i Hil) as (di & Hdi & Hki), (Hlk j Hjl) as (dj & Hdj & Hkj).
  assert (di = dj) as Heq.
  { apply strftime_inj; [by eapply add_days_valid..|congruence]. }
  subst dj. destruct (Nat.lt_trichotomy i j) as [Hlt|[->|Hlt]]; [|done|].
  - exfalso. eapply date_lt_irrefl, (add_days_lt start i j); eauto.
  - exfalso. eapply date_lt_irrefl, (add_days_lt start j i); eauto.
Qed.

Lemma sort_referral_data_ok referral_data start L dlast :
  add_days start (Z.to_nat L - 1) = Ok dlast →
  sort_referral_data referral_data start L =
  Ok (map (fun key => events_on key referral_data) (window_keys start L)).
Proof.
  intros Hlast. unfold sort_referral_data.
  rewrite (date_list_ok _ _ _ Hlast). simpl. f_equal.
  apply map_ext. intros key. by rewrite Counter_lookup, events_on_keys.
Qed.

(** C7, amended: for every list of referrals (repeated dates allowed),
    every start date and every window length [L >= 1] whose last day
    [start + L - 1] is still a datetime (not past 9999-12-31),
    [sort_referral_data] returns a series of length exactly [L]; position
    [i] holds the number of referrals received on day [start + i]; the sum
    of the series is the number of referrals whose date lies in the
    half-open window; and an empty list gives the all-zero series. *)
Theorem sort_referral_data_counts referral_data start L dlast :
  1 ≤ L →
  valid_date start = true →
  add_days start (Z.to_nat L - 1) = Ok dlast →
  ∃ series,
    sort_referral_data referral_data start L = Ok series
    ∧ Z.of_nat (length series) = L
    ∧ (∀ i, (i < Z.to_nat L)%nat →
         ∃ d, add_days start i = Ok d
              ∧ series !! i = Some (events_on (strftime d) referral_data))
    ∧ py_sum series =
        Z.of_nat (length (filter (fun r => ref_date_received r ∈ window_keys start L)
                                 referral_data))
    ∧ (referral_data = [] → series = replicate (Z.to_nat L) 0).
Proof.
  intros HL Hv Hlast.
  destruct (window_keys_lookup _ _ _ Hlast) as [Hlen Hlk].
  eexists. split; [by eapply sort_referral_data_ok|].
  split; [rewrite length_map, Hlen; lia|].
  split.
  { intros i Hi. destruct (Hlk i Hi) as (d & Hd & Hk). exists d. split; [done|].
    by rewrite list_lookup_fmap, Hk. }
  split; [apply py_sum_events; by eapply window_keys_NoDup|].
  intros ->. rewrite <- Hlen.
  generalize (window_keys start L). intros ks.
  induction ks as [|k ks IH]; simpl; [done|]. by rewrite IH.
Qed.


(** C7 at a window of five days with four referrals. *)
Lemma sort_referral_data_counts_witness :
  ∃ series, sort_referral_data refs3 jan 5 = Ok series ∧ Z.of_nat (length series) = 5
    ∧ (∀ i, (i < Z.to_nat 5)%nat →
         ∃ d, add_days jan i = Ok d
              ∧ series !! i = Some (events_on (strftime d) refs3))
    ∧ py_sum series =
        Z.of_nat (length (filter (fun r => ref_date_received r ∈ window_keys jan 5)
                                 refs3))
    ∧ (refs3 = [] → series = replicate (Z.to_nat 5) 0).
Proof.
  apply (sort_referral_data_counts refs3 jan 5 (mkdate 2021 1 5)); [lia|reflexivity|reflexivity].
Defined.

(** ** The effect monad *)

Lemma bind_ok {A B} (m : M A) (k : A → M B) t t1 a :
  m t = (t1, Ok a) → bind m k t = k a t1.
Proof. unfold bind. by intros ->. Qed.

Lemma bind_error {A B} (m : M A) (k : A → M B) t t1 e :
  m t = (t1, Error e) → bind m k t = (t1, Error e).
Proof. unfold bind. by intros ->. Qed.

Lemma for_each_app {A S} (body : S → A → M S) xs ys s t :
  for_each body (xs ++ ys) s t = bind (for_each body xs s) (for_each body ys) t.
Proof.
  revert s t. induction xs as [|x xs IH]; intros s t; simpl; [done|].
  unfold bind. destruct (body s x t) as [t1 [s1|e]]; [|done].
  rewrite IH. reflexivity.
Qed.

(** ** The forecast loop *)

Section ForecastLoop.
Variable model : Model.
Variable start : datetime.

Lemma forecast_step_eq st k t :
  forecast_step model start st k t =
  match calendar_of start k with
  | Error e => (t, Error e)
  | Ok oh =>
      (t ++ [EvModelPredict (data st) oh],
       match model (data st) oh with
       | Raised msg => Error (Upstream msg)
       | Returned out =>
           match read_prediction out with
           | Ok (row, n) => Ok {| predictions := predictions st ++ [row];
                                  data := drop 1 (data st) ++ [n] |}
           | Error e => Error e
           end
       end)
  end.
Proof.
  unfold forecast_step, calendar_of, read_prediction, bind, lift, call, ret.
  destruct (add_days start k) as [date|e]; simpl; [|done].
  destruct (one_hot_date date) as [oh|e]; simpl; [|done].
  destruct (model (data st) oh) as [out|msg]; simpl; [|done].
  destruct (py_index out 0) as [row|e]; simpl; [|done].
  destruct (py_index row 0) as [x|e]; simpl; [|done].
  destruct (py_int x) as [n|e]; simpl; done.
Qed.

Lemma forecast_loop_obs ks st t :
  ∃ evs r, forecast_loop model start ks st t = (t ++ evs, r)
           ∧ loop_obs model start ks st evs r.
Proof.
  revert st t. induction ks as [|k ks IH]; intros st t.
  - exists [], (Ok st). split; [by rewrite app_nil_r|constructor].
  - unfold forecast_loop. simpl. unfold bind. rewrite forecast_step_eq.
    destruct (calendar_of start k) as [oh|e] eqn:Hc.
    2:{ exists [], (Error e). split; [by rewrite app_nil_r|by constructor]. }
    destruct (model (data st) oh) as [out|msg] eqn:Hm.
    2:{ eexists _, _. split; [done|by econstructor]. }
    destruct (read_prediction out) as [[row n]|e] eqn:Hr.
    2:{ eexists _, _. split; [done|by eapply obs_bad_prediction]. }
    destruct (IH {| predictions := predictions st ++ [row];
                    data := drop 1 (data st) ++ [n] |}
                 (t ++ [EvModelPredict (data st) oh])) as (evs & r & Hrun & Hobs).
    exists (EvModelPredict (data st) oh :: evs), r. split.
    + unfold forecast_loop in Hrun. rewrite Hrun. by rewrite <- app_assoc.
    + by eapply obs_step.
Qed.

Lemma loop_obs_head ks st ev evs r :
  loop_obs model start ks st (ev :: evs) r →
  ∃ k ks' oh, ks = k :: ks' ∧ calendar_of start k = Ok oh
              ∧ ev = EvModelPredict (data st) oh.
Proof. inversion 1; subst; eauto 10. Qed.

Lemma loop_obs_slide ks st evs r i w c w' c' :
  loop_obs model start ks st evs r →
  evs !! i = Some (EvModelPredict w c) →
  evs !! S i = Some (EvModelPredict w' c') →
  ∃ out row n, model w c = Returned out ∧ read_prediction out = Ok (row, n)
               ∧ w' = drop 1 w ++ [n].
Proof.
  intros Hobs. revert i. induction Hobs as [| | | |k ks st oh out row n evs r Hc Hm Hr Hobs IH];
    intros i Hi HSi; try (destruct i; simpl in *; discriminate).
  destruct i as [|i]; simpl in *.
  - injection Hi as <- <-. destruct evs as [|ev evs]; [discriminate|].
    injection HSi as ->.
    apply loop_obs_head in Hobs as (? & ? & ? & _ & _ & [= -> _]). simpl.
    by exists out, row, n.
  - by eapply IH.
Qed.

Lemma slide_length (w : list Z) n :
  w ≠ [] → length (drop 1 w ++ [n]) = length w.
Proof. destruct w; [done|]. intros _. rewrite length_app. simpl. rewrite drop_0. lia. Qed.

Lemma loop_obs_window_length ks st evs r i w c :
  loop_obs model start ks st evs r →
  data st ≠ [] →
  evs !! i = Some (EvModelPredict w c) →
  length w = length (data st).
Proof.
  intros Hobs. revert i. induction Hobs as [| | | |k ks st oh out row n evs r Hc Hm Hr Hobs IH];
    intros i Hne Hi; try (destruct i; simpl in *; [by injection Hi as <- _|done]);
    try (by destruct i).
  destruct i as [|i]; simpl in *; [by injection Hi as <- _|].
  rewrite (IH i); [by apply slide_length| |done].
  simpl. intros Heq. apply (f_equal length) in Heq. rewrite slide_length in Heq by done.
  destruct (data st); done.
Qed.

Lemma loop_obs_calendar ks st evs r i w c :
  loop_obs model start ks st evs r →
  evs !! i = Some (EvModelPredict w c) →
  ∃ k, ks !! i = Some k ∧ calendar_of start k = Ok c.
Proof.
  intros Hobs. revert i. induction Hobs as [| | | |k ks st oh out row n evs r Hc Hm Hr Hobs IH];
    intros i Hi; try (destruct i; simpl in *; [injection Hi as <- <-; eauto|done]);
    try (by destruct i).
  destruct i as [|i]; simpl in *; [injection Hi as <- <-; eauto|]. by apply IH.
Qed.

Lemma loop_obs_ok ks st evs st' :
  loop_obs model start ks st evs (Ok st') →
  ∃ rows, predictions st' = predictions st ++ rows
    ∧ length rows = length ks
    ∧ ∀ i k, ks !! i = Some k →
        ∃ w c out row n, evs !! i = Some (EvModelPredict w c)
          ∧ calendar_of start k = Ok c
          ∧ model w c = Returned out
          ∧ read_prediction out = Ok (row, n)
          ∧ rows !! i = Some row.
Proof.
  remember (Ok st') as r eqn:Hr0. intros Hobs. revert st' Hr0.
  induction Hobs as [| | | |k ks st oh out row n evs r Hc Hm Hr Hobs IH];
    intros st' Hr0; try discriminate.
  - injection Hr0 as <-. exists []. split; [by rewrite app_nil_r|]. split; [done|].
    intros i k. by rewrite lookup_nil.
  - destruct (IH st' Hr0) as (rows & Hp & Hlen & Hall). simpl in Hp.
    exists (row :: rows). split; [by rewrite Hp, <- app_assoc|].
    split; [simpl; lia|].
    intros [|i] k'; simpl.
    + intros [= <-]. eauto 10.
    + apply Hall.
Qed.

End ForecastLoop.

Lemma read_prediction_row out row n :
  read_prediction out = Ok (row, n) →
  py_index out 0 = Ok row ∧ ∃ x, py_index row 0 = Ok x ∧ py_int x = Ok n.
Proof.
  unfold read_prediction.
  destruct (py_index out 0) as [row'|e] eqn:Ho; simpl; [|discriminate].
  destruct (py_index row' 0) as [x|e] eqn:Hx; simpl; [|discriminate].
  destruct (py_int x) as [n'|e] eqn:Hn; simpl; [|discriminate].
  intros [= <- <-]. split; [done|]. by exists x.
Qed.

Lemma get_predictions_obs model data0 start H t :
  ∃ evs r, loop_obs model start (py_range H) (mkForecastState [] data0) evs r
    ∧ get_predictions model data0 start H t =
      (t ++ evs, match r with Ok st => Ok (predictions st) | Error e => Error e end).
Proof.
  destruct (forecast_loop_obs model start (py_range H) (mkForecastState [] data0) t)
    as (evs & r & Hrun & Hobs).
  exists evs, r. split; [done|].
  unfold get_predictions, bind. rewrite Hrun. by destruct r.
Qed.

(** C1: the calendar feature is written one slot too far.  December is
    marked at index 12, so none of the first 12 positions is set; a date on
    the 31st asks for index 43 of a 43-wide array and raises; index 0 is
    never set (here for 30 January).  None of this depends on the year. *)
Theorem one_hot_date_off_by_one :
  (∀ y, one_hot_date (mkdate y 12 5) = Ok (two_hot 12 17))
  ∧ take 12 (two_hot 12 17) = replicate 12 f0
  ∧ (∀ y, one_hot_date (mkdate y 1 31) = Error IndexError)
  ∧ (∀ y, one_hot_date (mkdate y 1 30) = Ok (two_hot 1 42))
  ∧ two_hot 1 42 !! 0%nat = Some f0.
Proof. repeat split. Qed.

(** C8: [get_predictions] does not return one prediction per requested
    day when the horizon meets a 31st: with any model and any seed, a
    horizon of one day starting on 31 January raises before the model is
    called, and a horizon of two days starting on 30 January raises after
    the first prediction. *)
Theorem get_predictions_day_31 model data0 t :
  get_predictions model data0 (mkdate 2021 1 31) 1 t = (t, Error IndexError)
  ∧ get_predictions stub_model [1; 2; 4] (mkdate 2021 1 30) 2 t =
    (t ++ [EvModelPredict [1; 2; 4] (two_hot 1 42)], Error IndexError).
Proof. split; reflexivity. Qed.

(** C3, counterexample: with a model whose rows have a second channel
    equal to 9, the forecast entry that follows the seven padding entries
    is that row, and its second component is not 0. *)
Lemma forecast_entry_keeps_model_row :
  get_predictions stub_model [1; 2; 4] (mkdate 2021 3 1) 1 [] =
    ([EvModelPredict [1; 2; 4] (two_hot 3 13)],
     Ok [[FFinite (7 # 2); FFinite (9 # 1)]])
  ∧ data_frame_data stub_week [[FFinite (7 # 2); FFinite (9 # 1)]]
      !! 7%nat = Some (NdArray [FFinite (7 # 2); FFinite (9 # 1)])
  ∧ has_zero_flag (NdArray [FFinite (7 # 2); FFinite (9 # 1)]) = false.
Proof. repeat split. Qed.

Lemma padding_of_length sorted :
  length (padding_of sorted) = Nat.min (length sorted) 7.
Proof.
  unfold padding_of, py_slice_from, SIM_PADDING_LENGTH.
  rewrite length_map, length_drop.
  destruct (Z.ltb_spec (- (7)) 0); lia.
Qed.

(** C3, amended: when [get_predictions] returns, it returns one row per
    requested day, and the forecast entry at position [padding + i] of the
    assembled series is the first row of the model's output of step [i],
    as the model gave it. *)
Theorem forecast_entries_pass_through model data0 start H t t' preds sorted :
  get_predictions model data0 start H t = (t', Ok preds) →
  length preds = Z.to_nat H
  ∧ ∃ evs, t' = t ++ evs
    ∧ ∀ i, (i < Z.to_nat H)%nat →
        ∃ w c out row,
          evs !! i = Some (EvModelPredict w c)
          ∧ model w c = Returned out
          ∧ py_index out 0 = Ok row
          ∧ preds !! i = Some row
          ∧ data_frame_data sorted preds !! (length (padding_of sorted) + i)%nat
            = Some (NdArray row).
Proof.
  intros Hrun.
  destruct (get_predictions_obs model data0 start H t) as (evs & r & Hobs & Heq).
  rewrite Heq in Hrun. destruct r as [st|e]; [|discriminate].
  injection Hrun as <- <-.
  apply loop_obs_ok in Hobs as (rows & Hp & Hlen & Hall). simpl in Hp. subst rows.
  unfold py_range in Hlen. rewrite length_seq in Hlen.
  split; [done|]. exists evs. split; [done|].
  intros i Hi.
  destruct (Hall i i (py_range_lookup _ _ Hi)) as (w & c & out & row & n & He & _ & Hm & Hr & Hrow).
  apply read_prediction_row in Hr as [Hr _].
  exists w, c, out, row. repeat split; try done.
  unfold data_frame_data.
  rewrite lookup_app_r by lia.
  replace (length (padding_of sorted) + i - length (padding_of sorted))%nat with i by lia.
  rewrite lookup_app_l by (rewrite length_map, Hlen; lia).
  by rewrite list_lookup_fmap, Hrow.
Qed.

(** C3, amended, at a one-day forecast of the stub model. *)
Lemma forecast_entries_pass_through_witness :
  length [[FFinite (7 # 2); FFinite (9 # 1)]] = Z.to_nat 1
  ∧ ∃ evs, [EvModelPredict [1; 2; 4] (two_hot 3 13)] = [] ++ evs
    ∧ ∀ i, (i < Z.to_nat 1)%nat →
        ∃ w c out row,
          evs !! i = Some (EvModelPredict w c)
          ∧ stub_model w c = Returned out
          ∧ py_index out 0 = Ok row
          ∧ [[FFinite (7 # 2); FFinite (9 # 1)]] !! i = Some row
          ∧ data_frame_data stub_week [[FFinite (7 # 2); FFinite (9 # 1)]]
              !! (length (padding_of stub_week) + i)%nat
            = Some (NdArray row).
Proof.
  apply (forecast_entries_pass_through stub_model [1; 2; 4] (mkdate 2021 3 1) 1 []).
  reflexivity.
Defined.

(** C4, counterexample: a seed of three counts, shorter than
    [ML_PADDING_LENGTH], is accepted and the run returns its forecasts. *)
Lemma short_seed_is_accepted :
  Z.of_nat (length [1; 2; 4]) < ML_PADDING_LENGTH
  ∧ get_predictions stub_model [1; 2; 4] (mkdate 2021 3 1) 2 [] =
    ([EvModelPredict [1; 2; 4] (two_hot 3 13);
      EvModelPredict [2; 4; 3] (two_hot 3 14)],
     Ok [[FFinite (7 # 2); FFinite (9 # 1)]; [FFinite (9 # 2); FFinite (9 # 1)]]).
Proof. split; [reflexivity|reflexivity]. Qed.

(** C5: for a sorted series of at least [SIM_PADDING_LENGTH] counts and
    any list of forecasts, the assembled series has
    [SIM_PADDING_LENGTH + H + 1] entries, ends with [[0, 0]], starts with
    the last [SIM_PADDING_LENGTH] counts in their order, each paired with
    0, and the frame is tagged [(SIM_PADDING_LENGTH, 0)]. *)
Theorem data_frame_shape self sorted preds :
  SIM_PADDING_LENGTH ≤ Z.of_nat (length sorted) →
  Z.of_nat (length (df_data (build_data_frame self sorted preds)))
    = SIM_PADDING_LENGTH + Z.of_nat (length preds) + 1
  ∧ last (df_data (build_data_frame self sorted preds)) = Some (PyList [0; 0])
  ∧ take (Z.to_nat SIM_PADDING_LENGTH) (df_data (build_data_frame self sorted preds))
    = map (fun count => PyList [count; 0])
          (drop (length sorted - Z.to_nat SIM_PADDING_LENGTH) sorted)
  ∧ df_padding (build_data_frame self sorted preds) = (SIM_PADDING_LENGTH, 0).
Proof.
  unfold SIM_PADDING_LENGTH. intros Hlen. simpl. unfold data_frame_data.
  pose proof (padding_of_length sorted) as Hpad.
  repeat split.
  - rewrite !length_app, length_map, Hpad. simpl. lia.
  - by rewrite app_assoc, last_snoc.
  - rewrite take_app_le by lia. rewrite take_ge by lia.
    unfold padding_of, py_slice_from, SIM_PADDING_LENGTH.
    destruct (Z.ltb_spec (- (7)) 0); [|lia].
    do 2 f_equal. lia.
Qed.

(** C5 at a week of history and one forecast. *)
Lemma data_frame_shape_witness :
  Z.of_nat (length (df_data (build_data_frame stub_controller stub_week
                               [[FFinite (7 # 2); FFinite (9 # 1)]])))
    = SIM_PADDING_LENGTH + Z.of_nat (length [[FFinite (7 # 2); FFinite (9 # 1)]]) + 1
  ∧ last (df_data (build_data_frame stub_controller stub_week
                     [[FFinite (7 # 2); FFinite (9 # 1)]])) = Some (PyList [0; 0])
  ∧ take (Z.to_nat SIM_PADDING_LENGTH)
         (df_data (build_data_frame stub_controller stub_week
                     [[FFinite (7 # 2); FFinite (9 # 1)]]))
    = map (fun count => PyList [count; 0])
          (drop (length stub_week - Z.to_nat SIM_PADDING_LENGTH) stub_week)
  ∧ df_padding (build_data_frame stub_controller stub_week
                  [[FFinite (7 # 2); FFinite (9 # 1)]]) = (SIM_PADDING_LENGTH, 0).
Proof.
  apply (data_frame_shape stub_controller stub_week [[FFinite (7 # 2); FFinite (9 # 1)]]).
  vm_compute. discriminate.
Defined.

(** C2, counterexample: with two active models registered for the same
    clinic and severity, [get_model] raises nothing and loads the first. *)
Lemma get_model_takes_first_of_two :
  length (select_model_paths twin_models 1 (tc_severity class_a) true) = 2%nat
  ∧ get_model twin_models stub_loader 1 class_a [] =
    ([EvSelectModel 1 1; EvLoadModel "first.h5"], Ok stub_model).
Proof. split; reflexivity. Qed.

(** C2, amended: [get_model] raises its missing-model error exactly when
    no registered model matches (clinic, severity, in use); with one match
    or more it loads the file of the first matching row, and only the
    loader can then fail. *)
Theorem get_model_fails_only_without_rows models load_model clinic tc t :
  (snd (get_model models load_model clinic tc t) = Error (NoModel clinic tc)
   ↔ length (select_model_paths models clinic (tc_severity tc) true) = 0%nat)
  ∧ get_model models load_model clinic tc t =
    match filter (fun r => mr_clinic_id r = clinic ∧ mr_severity r = tc_severity tc
                           ∧ mr_in_use r = true) models with
    | [] => (t ++ [EvSelectModel clinic (tc_severity tc)], Error (NoModel clinic tc))
    | r :: _ =>
        (t ++ [EvSelectModel clinic (tc_severity tc); EvLoadModel (mr_file_path r)],
         match load_model (mr_file_path r) with
         | Returned m => Ok m
         | Raised msg => Error (Upstream msg)
         end)
    end.
Proof.
  unfold get_model, select_model_paths, bind, call, lift, raise.
  destruct (filter _ models) as [|r rows]; simpl.
  - split; [split; done|done].
  - rewrite <- app_assoc. simpl. split; [|done].
    split; [|done]. destruct (load_model (mr_file_path r)); discriminate.
Qed.

(** C10: with an empty list of intervals [predict] raises [IndexError]
    and the trace is unchanged: no query, no model load and no simulation
    call was made, and no response is returned. *)
Theorem predict_empty_intervals strptime historicdata models clinic_settings
    get_referral_data load_model gen_min_interval_slots clinic conf runs t :
  predict strptime historicdata models clinic_settings get_referral_data
          load_model gen_min_interval_slots
          (mkTriageController clinic [] conf runs) t
  = (t, Error IndexError).
Proof.
  unfold predict. apply bind_error.
  unfold predict_horizon. apply bind_error.
  reflexivity.
Qed.

(** C9: when the triage classes before [tc] were processed and [tc]
    fails with [e], [predict] ends with [e] where [tc] failed: the classes
    after [tc] are not run, and the responses gathered so far are not
    returned. *)
Theorem predict_aborts_on_failing_class strptime historicdata models clinic_settings
    get_referral_data load_model gen_min_interval_slots self
    t t0 h done tc rest t1 response t2 e :
  predict_horizon strptime historicdata self t = (t0, Ok h) →
  clinic_settings (clinic_id self) = Returned (done ++ tc :: rest) →
  for_each (predict_class models get_referral_data load_model
                          gen_min_interval_slots self h)
           done ∅ (t0 ++ [EvClinicData (clinic_id self)]) = (t1, Ok response) →
  predict_class models get_referral_data load_model gen_min_interval_slots
                self h response tc t1 = (t2, Error e) →
  predict strptime historicdata models clinic_settings get_referral_data
          load_model gen_min_interval_slots self t
  = (t2, Error e).
Proof.
  intros Hh Hs Hdone Hfail. unfold predict.
  rewrite (bind_ok _ _ _ _ _ Hh).
  assert (call (EvClinicData (clinic_id self)) (clinic_settings (clinic_id self)) t0
          = (t0 ++ [EvClinicData (clinic_id self)], Ok (done ++ tc :: rest))) as Hcall.
  { unfold call. by rewrite Hs. }
  rewrite (bind_ok _ _ _ _ _ Hcall).
  rewrite for_each_app, (bind_ok _ _ _ _ _ Hdone). simpl.
  by rewrite (bind_error _ _ _ _ _ Hfail).
Qed.

(** C9 at a clinic whose second class has no model in use. *)
Lemma predict_aborts_on_failing_class_witness :
  ∃ t2, predict stub_strptime stub_historicdata stub_models stub_settings
                stub_referrals stub_loader stub_simulation stub_controller []
        = (t2, Error (NoModel 1 class_b)).
Proof.
  eexists.
  eapply (predict_aborts_on_failing_class stub_strptime stub_historicdata stub_models
            stub_settings stub_referrals stub_loader stub_simulation stub_controller
            [] _ _ [class_a] class_b [class_c]).
  - vm_compute. reflexivity.
  - reflexivity.
  - vm_compute. reflexivity.
  - vm_compute. reflexivity.
Defined.

(** * Further properties of the controller *)

(** ** The calendar feature *)

Lemma np_zeros_length n : length (np_zeros n) = Z.to_nat n.
Proof. unfold np_zeros. apply length_replicate. Qed.

Lemma py_setitem_in_range {A} (xs : list A) i v :
  0 ≤ i < Z.of_nat (length xs) →
  py_setitem xs i v = Ok (<[Z.to_nat i := v]> xs).
Proof.
  intros Hi. unfold py_setitem.
  destruct (Z.ltb_spec i 0); [lia|].
  destruct (Z.leb_spec 0 i); [|lia].
  destruct (Z.ltb_spec i (Z.of_nat (length xs))); [done|lia].
Qed.

Lemma py_setitem_past_end {A} (xs : list A) i v :
  Z.of_nat (length xs) ≤ i → py_setitem xs i v = Error IndexError.
Proof.
  intros Hi. unfold py_setitem.
  destruct (Z.ltb_spec i 0); [lia|].
  destruct (Z.leb_spec 0 i); [|lia].
  destruct (Z.ltb_spec i (Z.of_nat (length xs))); [lia|done].
Qed.

(** X2: for a month 1..12 and a day 1..31, the calendar feature is the
    43-wide vector with ones at index [month] and index [12 + day], except
    on a 31st, where writing index 43 raises. *)
Theorem one_hot_date_slots date :
  1 ≤ month date ≤ 12 →
  1 ≤ day date ≤ 31 →
  one_hot_date date =
    if day date =? 31 then Error IndexError
    else Ok (two_hot (Z.to_nat (month date)) (Z.to_nat (12 + day date))).
Proof.
  intros Hm Hd. unfold one_hot_date, two_hot.
  rewrite py_setitem_in_range by (rewrite np_zeros_length; lia). simpl rbind.
  destruct (Z.eqb_spec (day date) 31) as [H31|H31].
  - apply py_setitem_past_end. rewrite length_insert, np_zeros_length. lia.
  - apply py_setitem_in_range. rewrite length_insert, np_zeros_length. lia.
Qed.

(** X2 on 1 March. *)
Lemma one_hot_date_slots_witness :
  one_hot_date (mkdate 2021 3 1) =
    if day (mkdate 2021 3 1) =? 31 then Error IndexError
    else Ok (two_hot (Z.to_nat (month (mkdate 2021 3 1)))
                     (Z.to_nat (12 + day (mkdate 2021 3 1)))).
Proof. apply (one_hot_date_slots (mkdate 2021 3 1)); simpl; lia. Defined.

(** A vector [two_hot i j] is 43 wide and holds 1 at [i] and [j], 0
    elsewhere. *)
Theorem two_hot_lookup i j k :
  (i < 43)%nat → (j < 43)%nat →
  length (two_hot i j) = 43%nat
  ∧ ((k < 43)%nat → two_hot i j !! k = Some (if decide (k = i ∨ k = j) then f1 else f0)).
Proof.
  intros Hi Hj. unfold two_hot. split.
  - by rewrite !length_insert, np_zeros_length.
  - intros Hk. destruct (decide (k = j)) as [->|Hkj].
    + rewrite list_lookup_insert_eq by (rewrite length_insert, np_zeros_length; simpl; lia).
      destruct (decide (j = i ∨ j = j)) as [|Hn]; [done|]. exfalso. apply Hn. by right.
    + rewrite list_lookup_insert_ne by done.
      destruct (decide (k = i)) as [->|Hki].
      * rewrite list_lookup_insert_eq by (rewrite np_zeros_length; simpl; lia).
        destruct (decide (i = i ∨ i = j)) as [|Hn]; [done|]. exfalso. apply Hn. by left.
      * rewrite list_lookup_insert_ne by done.
        destruct (decide (k = i ∨ k = j)) as [[?|?]|_]; [done..|].
        unfold np_zeros. apply lookup_replicate_2. simpl. lia.
Qed.

(** ** The forecast driver returns when nothing raises *)

Lemma forecast_loop_returns model start ks st t :
  (∀ k, k ∈ ks → ∃ oh, calendar_of start k = Ok oh) →
  (∀ w c, ∃ x row out n, model w c = Returned ((x :: row) :: out) ∧ py_int x = Ok n) →
  ∃ evs st', forecast_loop model start ks st t = (t ++ evs, Ok st')
    ∧ length evs = length ks
    ∧ length (predictions st') = (length (predictions st) + length ks)%nat.
Proof.
  intros Hcal Hmodel. revert st t Hcal.
  induction ks as [|k ks IH]; intros st t Hcal.
  - exists [], st. rewrite app_nil_r. simpl. split; [done|]. split; [done|lia].
  - destruct (Hcal k) as [oh Hoh]; [left|].
    destruct (Hmodel (data st) oh) as (x & row & out & n & Hm & Hn).
    unfold forecast_loop. simpl. unfold bind. rewrite forecast_step_eq, Hoh, Hm.
    unfold read_prediction. simpl. rewrite Hn. simpl.
    destruct (IH {| predictions := predictions st ++ [x :: row];
                    data := drop 1 (data st) ++ [n] |}
                 (t ++ [EvModelPredict (data st) oh])) as (evs & st' & Hrun & Hlen & Hp).
    { intros; apply Hcal; by right. }
    unfold forecast_loop in Hrun. rewrite Hrun.
    exists (EvModelPredict (data st) oh :: evs), st'.
    rewrite <- app_assoc. split; [done|]. split; [simpl; lia|].
    rewrite Hp. simpl. rewrite length_app. simpl. lia.
Qed.

(** X1: when every requested day has a calendar feature and the model
    answers every call with a non-empty first row whose first element is
    finite, [get_predictions] returns exactly one prediction per requested
    day and has called the model once per day. *)
Theorem get_predictions_returns model data0 start H t :
  (∀ i, (i < Z.to_nat H)%nat → ∃ oh, calendar_of start i = Ok oh) →
  (∀ w c, ∃ x row out n, model w c = Returned ((x :: row) :: out) ∧ py_int x = Ok n) →
  ∃ evs preds,
    get_predictions model data0 start H t = (t ++ evs, Ok preds)
    ∧ length preds = Z.to_nat H
    ∧ length evs = Z.to_nat H.
Proof.
  intros Hcal Hmodel.
  destruct (forecast_loop_returns model start (py_range H)
              {| predictions := []; data := data0 |} t)
    as (evs & st' & Hrun & Hlen & Hp); [|done|].
  { intros k Hk. apply Hcal. by apply py_range_elem. }
  exists evs, (predictions st'). unfold get_predictions, bind. rewrite Hrun.
  unfold py_range in *. rewrite length_seq in *. simpl in Hp. by rewrite Hp.
Qed.

(** X1 on three days of March with the stub model. *)
Lemma get_predictions_returns_witness :
  ∃ evs preds,
    get_predictions stub_model [1; 2; 4] (mkdate 2021 3 1) 3 [] = ([] ++ evs, Ok preds)
    ∧ length preds = Z.to_nat 3
    ∧ length evs = Z.to_nat 3.
Proof.
  apply (get_predictions_returns stub_model [1; 2; 4] (mkdate 2021 3 1) 3 []).
  - intros i Hi.
    destruct i as [|[|[|i]]]; [eexists; reflexivity..|simpl in Hi; lia].
  - intros w c. by exists (FFinite (py_sum w # 2)), [FFinite (9 # 1)], [],
      (Z.quot (py_sum w) 2).
Defined.

(** ** The calendar aligner *)

Lemma date_ltb_lt a b : date_ltb a b = true ↔ date_lt a b.
Proof.
  unfold date_ltb, date_lt.
  rewrite !orb_true_iff, !andb_true_iff, !orb_true_iff, !andb_true_iff,
    !Z.ltb_lt, !Z.eqb_eq.
  tauto.
Qed.

Lemma latest_spec ds :
  match latest ds with
  | None => ds = []
  | Some r => r ∈ ds ∧ ∀ x, x ∈ ds → ¬ date_lt r x
  end.
Proof.
  induction ds as [|d ds IH]; simpl; [done|].
  destruct (latest ds) as [b|].
  - destruct IH as [Hin Hmax]. destruct (date_ltb b d) eqn:Hbd.
    + apply date_ltb_lt in Hbd. split; [left|].
      intros x Hx. apply elem_of_cons in Hx as [Hx|Hx].
      * subst x. apply date_lt_irrefl.
      * specialize (Hmax x Hx). unfold date_lt in *. lia.
    + assert (¬ date_lt b d) as Hnlt.
      { intros Hlt%date_ltb_lt. congruence. }
      split; [by right|].
      intros x Hx. apply elem_of_cons in Hx as [Hx|Hx]; [by subst x|by apply Hmax].
  - subst ds. split; [left|].
    intros x Hx. apply elem_of_cons in Hx as [Hx|Hx]; [|by apply elem_of_nil in Hx].
    subst x. apply date_lt_irrefl.
Qed.

(** X3: [get_historic_data_year] makes one query; it raises when no
    historic record has the month of the start date and a day on or after
    its day, and otherwise returns the year of the most recent such
    record. *)
Theorem get_historic_data_year_latest strptime historicdata start_date d t :
  strptime start_date = Ok d →
  match latest (filter (fun r => month r = month d ∧ day d ≤ day r) historicdata) with
  | None =>
      (∀ r, r ∈ historicdata → ¬ (month r = month d ∧ day d ≤ day r))
      ∧ get_historic_data_year strptime historicdata start_date t =
        (t ++ [EvSelectYear (month d) (day d)], Error (NoHistoricYear start_date))
  | Some best =>
      best ∈ historicdata
      ∧ month best = month d ∧ day d ≤ day best
      ∧ (∀ r, r ∈ historicdata → month r = month d → day d ≤ day r → ¬ date_lt best r)
      ∧ get_historic_data_year strptime historicdata start_date t =
        (t ++ [EvSelectYear (month d) (day d)], Ok (year best))
  end.
Proof.
  intros Hd. unfold get_historic_data_year, select_historic_year, bind, lift, call, raise.
  rewrite Hd.
  pose proof (latest_spec (filter (fun r => month r = month d ∧ day d ≤ day r)
                                  historicdata)) as Hl.
  destruct (latest _) as [best|].
  - destruct Hl as [Hin Hmax]. apply list_elem_of_filter in Hin as [[Hm Hday] Hin].
    repeat split; try done.
    intros r Hr Hrm Hrd. apply Hmax. by apply list_elem_of_filter.
  - split; [|done]. intros r Hr Hmatch.
    assert (r ∈ filter (fun r => month r = month d ∧ day d ≤ day r) historicdata) as Hin
      by by apply list_elem_of_filter.
    rewrite Hl in Hin. by apply elem_of_nil in Hin.
Qed.

(** X3 with three historic records, for 1 March. *)
Lemma get_historic_data_year_latest_witness :
  mkdate 2020 3 15 ∈ stub_historicdata
  ∧ month (mkdate 2020 3 15) = month (mkdate 2021 3 1)
  ∧ day (mkdate 2021 3 1) ≤ day (mkdate 2020 3 15)
  ∧ (∀ r, r ∈ stub_historicdata → month r = month (mkdate 2021 3 1) →
          day (mkdate 2021 3 1) ≤ day r → ¬ date_lt (mkdate 2020 3 15) r)
  ∧ get_historic_data_year stub_strptime stub_historicdata "2021-03-01" [] =
    ([] ++ [EvSelectYear (month (mkdate 2021 3 1)) (day (mkdate 2021 3 1))],
     Ok (year (mkdate 2020 3 15))).
Proof.
  apply (get_historic_data_year_latest stub_strptime stub_historicdata
           "2021-03-01" (mkdate 2021 3 1) []).
  reflexivity.
Defined.

(** * The rest of the controller *)

(** ** Days forward and back *)

Lemma is_leap_spec y :
  is_leap y = true ↔ y mod 4 = 0 ∧ (y mod 100 ≠ 0 ∨ y mod 400 = 0).
Proof.
  unfold is_leap.
  rewrite andb_true_iff, orb_true_iff, negb_true_iff, !Z.eqb_eq, Z.eqb_neq. tauto.
Qed.

Lemma prev_day_valid d d' :
  valid_date d = true → prev_day d = Ok d' → valid_date d' = true.
Proof.
  rewrite !valid_date_spec. unfold prev_day, MINYEAR, MAXYEAR.
  intros (Hy & Hm & Hd).
  destruct (Z.ltb_spec 1 (day d)).
  { intros [= <-]. simpl. lia. }
  destruct (Z.ltb_spec 1 (month d)).
  { intros [= <-]. simpl.
    pose proof (days_in_month_bounds (year d) (month d - 1)). lia. }
  destruct (Z.ltb_spec 1 (year d)); [|discriminate].
  intros [= <-]. simpl. unfold days_in_month. simpl. lia.
Qed.

Lemma next_prev_day d d' :
  valid_date d = true → prev_day d = Ok d' → next_day d' = Ok d.
Proof.
  rewrite valid_date_spec. unfold prev_day, next_day, MINYEAR, MAXYEAR.
  intros (Hy & Hm & Hd). destruct d as [y m dd]. simpl in *.
  destruct (Z.ltb_spec 1 dd).
  { intros [= <-]. simpl.
    destruct (Z.ltb_spec (dd - 1) (days_in_month y m)); [|lia].
    do 2 f_equal. lia. }
  destruct (Z.ltb_spec 1 m).
  { intros [= <-]. simpl.
    destruct (Z.ltb_spec (days_in_month y (m - 1)) (days_in_month y (m - 1))); [lia|].
    destruct (Z.ltb_spec (m - 1) 12); [|lia].
    f_equal. f_equal; lia. }
  destruct (Z.ltb_spec 1 y); [|discriminate].
  intros [= <-]. simpl. unfold days_in_month. simpl.
  destruct (Z.ltb_spec (y - 1) 9999); [|lia].
  f_equal. f_equal; lia.
Qed.

Lemma prev_next_day d d' :
  valid_date d = true → next_day d = Ok d' → prev_day d' = Ok d.
Proof.
  rewrite valid_date_spec. unfold prev_day, next_day, MINYEAR, MAXYEAR.
  intros (Hy & Hm & Hd). destruct d as [y m dd]. simpl in *.
  destruct (Z.ltb_spec dd (days_in_month y m)).
  { intros [= <-]. simpl. destruct (Z.ltb_spec 1 (dd + 1)); [|lia].
    do 2 f_equal. lia. }
  destruct (Z.ltb_spec m 12).
  { intros [= <-]. simpl. destruct (Z.ltb_spec 1 (m + 1)); [|lia].
    replace (m + 1 - 1) with m by lia. f_equal. f_equal. lia. }
  destruct (Z.ltb_spec y 9999); [|discriminate].
  intros [= <-]. simpl. destruct (Z.ltb_spec 1 (y + 1)); [|lia].
  assert (m = 12) as -> by lia. unfold days_in_month in *. simpl in *.
  f_equal. f_equal; lia.
Qed.

Lemma add_days_shift d n :
  add_days d (S n) = rbind (next_day d) (fun d1 => add_days d1 n).
Proof.
  induction n as [|n IH].
  - simpl. by destruct (next_day d).
  - rewrite add_days_S, IH. by destruct (next_day d) as [d1|e].
Qed.

Lemma sub_days_valid d n d' :
  valid_date d = true → sub_days d n = Ok d' → valid_date d' = true.
Proof.
  intros Hv. revert d'. induction n as [|n IH]; intros d'; simpl.
  - by intros [= <-].
  - destruct (sub_days d n) as [x|e]; [|discriminate]. simpl.
    intros Hp. eapply prev_day_valid; [|exact Hp]. by apply IH.
Qed.

Lemma add_sub_days d n d' :
  valid_date d = true → sub_days d n = Ok d' → add_days d' n = Ok d.
Proof.
  intros Hv. revert d'. induction n as [|n IH]; intros d'.
  - by intros [= <-].
  - cbn [sub_days]. destruct (sub_days d n) as [x|e] eqn:Hs; [|discriminate].
    cbn [rbind]. intros Hp. rewrite add_days_shift.
    rewrite (next_prev_day x d'); [|by eapply sub_days_valid|done].
    simpl. by apply IH.
Qed.

(** ** Ordinals *)

Lemma days_before_month_table y m :
  1 ≤ m ≤ 12 →
  days_before_month y m =
    (if m =? 1 then 0 else if m =? 2 then 31
     else (if is_leap y then 1 else 0) +
          (if m =? 3 then 59 else if m =? 4 then 90 else if m =? 5 then 120
           else if m =? 6 then 151 else if m =? 7 then 181 else if m =? 8 then 212
           else if m =? 9 then 243 else if m =? 10 then 273
           else if m =? 11 then 304 else 334)).
Proof.
  intros Hm.
  assert (m = 1 ∨ m = 2 ∨ m = 3 ∨ m = 4 ∨ m = 5 ∨ m = 6 ∨ m = 7 ∨ m = 8
          ∨ m = 9 ∨ m = 10 ∨ m = 11 ∨ m = 12) as Hcases by lia.
  unfold days_before_month, days_in_month.
  repeat (destruct Hcases as [->|Hcases]); try subst m; simpl;
    destruct (is_leap y); reflexivity.
Qed.

Lemma days_before_year_succ y :
  days_before_year (y + 1) =
  days_before_year y + 365 + (if is_leap y then 1 else 0).
Proof.
  unfold days_before_year.
  replace (y + 1 - 1) with y by lia.
  destruct (is_leap y) eqn:Hl.
  - apply is_leap_spec in Hl. Z.to_euclidean_division_equations. lia.
  - assert (¬ (y mod 4 = 0 ∧ (y mod 100 ≠ 0 ∨ y mod 400 = 0))) as Hn.
    { rewrite <- is_leap_spec. congruence. }
    Z.to_euclidean_division_equations. lia.
Qed.

Lemma toordinal_next_day d d' :
  valid_date d = true → next_day d = Ok d' → toordinal d' = toordinal d + 1.
Proof.
  rewrite valid_date_spec. unfold next_day, toordinal, MINYEAR, MAXYEAR.
  intros (Hy & Hm & Hd). destruct d as [y m dd]. simpl in *.
  destruct (Z.ltb_spec dd (days_in_month y m)).
  { intros [= <-]. simpl. lia. }
  destruct (Z.ltb_spec m 12).
  { intros [= <-]. simpl.
    rewrite !days_before_month_table by lia.
    assert (dd = days_in_month y m) as -> by lia.
    assert (m = 1 ∨ m = 2 ∨ m = 3 ∨ m = 4 ∨ m = 5 ∨ m = 6 ∨ m = 7 ∨ m = 8
            ∨ m = 9 ∨ m = 10 ∨ m = 11) as Hcases by lia.
    unfold days_in_month.
    repeat (destruct Hcases as [->|Hcases]); try subst m; simpl;
      destruct (is_leap y); lia. }
  destruct (Z.ltb_spec y 9999); [|discriminate].
  intros [= <-]. simpl. assert (m = 12) as -> by lia.
  rewrite days_before_year_succ, !days_before_month_table by lia.
  unfold days_in_month in *. simpl in *. destruct (is_leap y); lia.
Qed.

Lemma toordinal_add_days d n d' :
  valid_date d = true → add_days d n = Ok d' →
  toordinal d' = toordinal d + Z.of_nat n.
Proof.
  intros Hv. revert d'. induction n as [|n IH]; intros d'.
  - intros [= <-]. simpl. lia.
  - rewrite add_days_S. destruct (add_days d n) as [x|e] eqn:Hx; [|discriminate].
    simpl. intros Hn. rewrite (toordinal_next_day x d'); [|by eapply add_days_valid|done].
    rewrite (IH x eq_refl). lia.
Qed.

Lemma toordinal_positive d : valid_date d = true → 1 ≤ toordinal d.
Proof.
  rewrite valid_date_spec. unfold toordinal, MINYEAR. intros (Hy & Hm & Hd).
  rewrite days_before_month_table by lia.
  assert (0 ≤ days_before_year (year d)).
  { unfold days_before_year. Z.to_euclidean_division_equations. lia. }
  repeat match goal with |- context [if ?b then _ else _] => destruct b end; lia.
Qed.

Lemma prev_day_first d :
  valid_date d = true → toordinal d ≠ 1 → ∃ d', prev_day d = Ok d'.
Proof.
  intros Hv Hne. pose proof Hv as Hv'. rewrite valid_date_spec in Hv'.
  unfold MINYEAR in Hv'. destruct Hv' as (Hy & Hm & Hd).
  unfold prev_day.
  destruct (Z.ltb_spec 1 (day d)); [eauto|].
  destruct (Z.ltb_spec 1 (month d)); [eauto|].
  destruct (Z.ltb_spec MINYEAR (year d)); [eauto|].
  exfalso. apply Hne. unfold MINYEAR in *. destruct d as [y m dd]. simpl in *.
  assert (y = 1) as -> by lia. assert (m = 1) as -> by lia. assert (dd = 1) as -> by lia.
  reflexivity.
Qed.

Lemma add_days_reaches a b n :
  valid_date a = true → valid_date b = true →
  toordinal b = toordinal a + Z.of_nat n →
  add_days a n = Ok b.
Proof.
  intros Ha. revert b. induction n as [|n IH]; intros b Hb Hord.
  - (* same ordinal: walk both back to the first day *)
    assert (∀ k x y, valid_date x = true → valid_date y = true →
              toordinal x = Z.of_nat k → toordinal y = Z.of_nat k → x = y) as Hinj.
    { clear. induction k as [|k IH]; intros x y Hx Hy Hox Hoy.
      - pose proof (toordinal_positive x Hx). lia.
      - destruct (decide (k = 0%nat)) as [->|Hk].
        + pose proof Hx as Hx'. pose proof Hy as Hy'.
          rewrite valid_date_spec in Hx', Hy'. unfold MINYEAR in *.
          destruct Hx' as (Hxy & Hxm & Hxd), Hy' as (Hyy & Hym & Hyd).
          unfold toordinal in *.
          assert (0 ≤ days_before_year (year x) ∧ 0 ≤ days_before_year (year y)
                  ∧ (1 < year x → 365 ≤ days_before_year (year x))
                  ∧ (1 < year y → 365 ≤ days_before_year (year y))) as (?&?&?&?).
          { unfold days_before_year. Z.to_euclidean_division_equations. lia. }
          rewrite days_before_month_table in Hox, Hoy by lia.
          destruct x as [xy xm xd], y as [yy ym yd]. simpl in *.
          assert (xy = 1 ∧ yy = 1) as [-> ->].
          { repeat match goal with
                   | H : context [if ?b then _ else _] |- _ => destruct b
                   end; lia. }
          assert (xm = 1 ∧ ym = 1) as [-> ->].
          { split.
            - destruct (Z.eqb_spec xm 1); [done|]. destruct (Z.eqb_spec xm 2); [lia|].
              repeat match goal with
                   | H : context [if ?b then _ else _] |- _ => destruct b
                   end; lia.
            - destruct (Z.eqb_spec ym 1); [done|]. destruct (Z.eqb_spec ym 2); [lia|].
              repeat match goal with
                   | H : context [if ?b then _ else _] |- _ => destruct b
                   end; lia. }
          simpl in *. f_equal. unfold days_before_year in *. simpl in *. lia.
        + destruct (prev_day_first x Hx) as [x' Hx']; [lia|].
          destruct (prev_day_first y Hy) as [y' Hy']; [lia|].
          pose proof (next_prev_day _ _ Hx Hx') as Hnx.
          pose proof (next_prev_day _ _ Hy Hy') as Hny.
          pose proof (prev_day_valid _ _ Hx Hx') as Hvx.
          pose proof (prev_day_valid _ _ Hy Hy') as Hvy.
          pose proof (toordinal_next_day _ _ Hvx Hnx).
          pose proof (toordinal_next_day _ _ Hvy Hny).
          assert (x' = y') as -> by (apply IH; [done|done|lia|lia]).
          congruence. }
    simpl. f_equal. symmetry.
    pose proof (toordinal_positive a Ha).
    apply (Hinj (Z.to_nat (toordinal a))); [done|done|lia|lia].
  - pose proof (toordinal_positive a Ha).
    destruct (prev_day_first b Hb) as [b' Hb']; [lia|].
    pose proof (next_prev_day _ _ Hb Hb') as Hnb.
    pose proof (prev_day_valid _ _ Hb Hb') as Hvb.
    pose proof (toordinal_next_day _ _ Hvb Hnb).
    rewrite add_days_S, (IH b'); [done|done|lia].
Qed.

(** ** What the daily series depends on *)

Lemma next_day_error d e : next_day d = Error e → e = OverflowError.
Proof.
  unfold next_day. repeat case_match; intros [= <-] || discriminate. done.
Qed.

Lemma add_days_error d n e : add_days d n = Error e → e = OverflowError.
Proof.
  induction n as [|n IH]; [discriminate|].
  rewrite add_days_S. destruct (add_days d n) as [x|e']; simpl.
  - apply next_day_error.
  - intros [= <-]. by apply IH.
Qed.

Lemma add_days_error_le d m n e :
  (m ≤ n)%nat → add_days d m = Error e → add_days d n = Error OverflowError.
Proof.
  intros Hle Hm. destruct (add_days d n) as [dn|e'] eqn:Hn.
  - destruct (add_days_ok_le d n m dn Hle Hn) as [dm Hdm]. congruence.
  - by rewrite (add_days_error _ _ _ Hn).
Qed.

Lemma res_map_error {A B} (f : A → result B) xs x e0 :
  x ∈ xs → (∃ e, f x = Error e) → (∀ y e, f y = Error e → e = e0) →
  res_map f xs = Error e0.
Proof.
  intros Hin [e Hx] Hall. induction xs as [|y xs IH]; [by apply elem_of_nil in Hin|].
  simpl. destruct (f y) as [b|e'] eqn:Hy; simpl.
  - apply elem_of_cons in Hin as [->|Hin]; [congruence|]. by rewrite IH.
  - by rewrite (Hall _ _ Hy).
Qed.

(** X4: [sort_referral_data] in full, for a start that is a datetime.  A
    window length of 0 or less gives the empty series; a window that runs past 9999-12-31 raises
    [OverflowError] whatever the referrals; otherwise the series holds, for
    each day of the window in order, the number of referrals received on
    that day. *)
Theorem sort_referral_data_cases referral_data start L :
  valid_date start = true →
  sort_referral_data referral_data start L =
    if L <=? 0 then Ok []
    else match add_days start (Z.to_nat L - 1) with
         | Ok _ => Ok (map (fun key => events_on key referral_data)
                           (window_keys start L))
         | Error _ => Error OverflowError
         end.
Proof.
  intros _.
  destruct (Z.leb_spec L 0) as [Hle|Hlt].
  - unfold sort_referral_data, py_range. replace (Z.to_nat L) with 0%nat by lia. done.
  - destruct (add_days start (Z.to_nat L - 1)) as [dlast|e] eqn:Hlast.
    + by eapply sort_referral_data_ok.
    + unfold sort_referral_data.
      rewrite (res_map_error _ _ (Z.to_nat L - 1)%nat OverflowError); [done| | |].
      * unfold py_range. apply elem_of_seq. lia.
      * rewrite Hlast. simpl. eauto.
      * intros y e'. destruct (add_days start y) as [d|e''] eqn:Hy; simpl; [discriminate|].
        intros [= <-]. by eapply add_days_error.
Qed.

(** X4 on a window of five days in January 2021. *)
Lemma sort_referral_data_cases_witness :
  sort_referral_data refs3 jan 5 =
    if 5 <=? 0 then Ok []
    else match add_days jan (Z.to_nat 5 - 1) with
         | Ok _ => Ok (map (fun key => events_on key refs3) (window_keys jan 5))
         | Error _ => Error OverflowError
         end.
Proof. apply (sort_referral_data_cases refs3 jan 5). reflexivity. Defined.

Lemma date_list_is_window start L date_list :
  res_map (fun offset => (do d <- add_days start offset; Ok (strftime d))%res)
          (py_range L) = Ok date_list →
  date_list = window_keys start L.
Proof.
  unfold window_keys. generalize (py_range L). intros offs. revert date_list.
  induction offs as [|k offs IH]; intros date_list; simpl.
  - by intros [= <-].
  - destruct (add_days start k) as [d|e]; simpl; [|discriminate].
    destruct (res_map _ offs) as [ys|e]; simpl; [|discriminate].
    intros [= <-]. by rewrite (IH ys eq_refl).
Qed.

(** X5: [sort_referral_data] gives the same result for any reordering of
    the referrals. *)
Theorem sort_referral_data_permutation referral_data referral_data' start L :
  referral_data ≡ₚ referral_data' →
  sort_referral_data referral_data start L =
  sort_referral_data referral_data' start L.
Proof.
  intros Hperm. unfold sort_referral_data.
  destruct (res_map _ _) as [date_list|e]; simpl; [|done].
  f_equal. apply map_ext. intros key.
  rewrite !Counter_lookup. f_equal. by rewrite Hperm.
Qed.

(** X5 on four referrals and their reversal. *)
Lemma sort_referral_data_permutation_witness :
  sort_referral_data refs3 jan 5 = sort_referral_data (reverse refs3) jan 5.
Proof.
  apply (sort_referral_data_permutation refs3 (reverse refs3) jan 5).
  symmetry. apply reverse_Permutation.
Defined.

(** X6: for a start that is a datetime, referrals dated outside the window
    do not count: [sort_referral_data] gives the same result once they are
    removed. *)
Theorem sort_referral_data_window_only referral_data start L :
  valid_date start = true →
  sort_referral_data referral_data start L =
  sort_referral_data
    (filter (fun r => ref_date_received r ∈ window_keys start L) referral_data)
    start L.
Proof.
  intros _.
  unfold sort_referral_data.
  destruct (res_map _ _) as [date_list|e] eqn:Hd; simpl; [|done].
  apply date_list_is_window in Hd. subst date_list.
  f_equal. apply list_fmap_ext. intros i key Hkey.
  apply list_elem_of_lookup_2 in Hkey.
  rewrite !Counter_lookup. f_equal.
  induction referral_data as [|r refs IH]; [done|].
  rewrite filter_cons. destruct (decide (ref_date_received r ∈ window_keys start L)) as [Hin|Hout].
  - rewrite !fmap_cons, !filter_cons.
    destruct (decide (ref_date_received r = key)); simpl; [f_equal|]; apply IH.
  - rewrite fmap_cons, filter_cons.
    destruct (decide (ref_date_received r = key)) as [Heq|_]; [|apply IH].
    exfalso. apply Hout. by rewrite Heq.
Qed.

(** X6 on four referrals, one of them dated after the window. *)
Lemma sort_referral_data_window_only_witness :
  sort_referral_data refs3 jan 5 =
  sort_referral_data
    (filter (fun r => ref_date_received r ∈ window_keys jan 5) refs3) jan 5.
Proof. apply (sort_referral_data_window_only refs3 jan 5). reflexivity. Defined.

(** ** More on the forecast loop *)

Lemma py_setitem_error {A} (xs : list A) i v e :
  py_setitem xs i v = Error e → e = IndexError.
Proof. unfold py_setitem. case_match; [discriminate|]. by intros [= <-]. Qed.

Lemma py_index_error {A} (xs : list A) i e :
  py_index xs i = Error e → e = IndexError.
Proof. unfold py_index. repeat case_match; try discriminate; by intros [= <-]. Qed.

Lemma calendar_of_error start k e :
  calendar_of start k = Error e → e = OverflowError ∨ e = IndexError.
Proof.
  unfold calendar_of, one_hot_date.
  destruct (add_days start k) as [date|e'] eqn:Hd; simpl.
  - destruct (py_setitem _ (month date) f1) as [a|e'] eqn:Ha; simpl.
    + intros He%py_setitem_error. by right.
    + intros [= <-]. apply py_setitem_error in Ha. by right.
  - intros [= <-]. left. by eapply add_days_error.
Qed.

Lemma read_prediction_error out e :
  read_prediction out = Error e →
  e = IndexError ∨ e = ValueError ∨ e = OverflowError.
Proof.
  unfold read_prediction.
  destruct (py_index out 0) as [row|e'] eqn:Ho; simpl.
  2:{ intros [= <-]. left. by eapply py_index_error. }
  destruct (py_index row 0) as [x|e'] eqn:Hx; simpl.
  2:{ intros [= <-]. left. by eapply py_index_error. }
  destruct x as [q| |neg]; simpl; [discriminate| |]; intros [= <-]; auto.
Qed.

Section ForecastRuns.
Variable model : Model.
Variable start : datetime.

Lemma loop_obs_events ks st evs r :
  loop_obs model start ks st evs r →
  (length evs ≤ length ks)%nat
  ∧ (∀ st', r = Ok st' → length evs = length ks)
  ∧ ∀ i e, evs !! i = Some e →
      ∃ w c k, e = EvModelPredict w c ∧ ks !! i = Some k ∧ calendar_of start k = Ok c.
Proof.
  induction 1 as [st|k ks st e Hc|k ks st oh msg Hc Hm|k ks st oh out e Hc Hm Hr
                  |k ks st oh out row n evs r Hc Hm Hr Hobs IH]; simpl.
  - split; [lia|]. split; [done|]. intros i e. by rewrite lookup_nil.
  - split; [lia|]. split; [done|]. intros i e'. by rewrite lookup_nil.
  - split; [lia|]. split; [done|]. intros [|i] e'; simpl; [|by rewrite lookup_nil].
    intros [= <-]. eauto 10.
  - split; [lia|]. split; [done|]. intros [|i] e'; simpl; [|by rewrite lookup_nil].
    intros [= <-]. eauto 10.
  - destruct IH as (Hle & Hok & Hev). split; [lia|].
    split; [intros st' ->; by rewrite (Hok st' eq_refl)|].
    intros [|i] e'; simpl; [intros [= <-]; eauto 10|apply Hev].
Qed.

Lemma loop_obs_error ks st evs e :
  loop_obs model start ks st evs (Error e) →
  e = IndexError ∨ e = ValueError ∨ e = OverflowError
  ∨ ∃ msg w c, e = Upstream msg ∧ last evs = Some (EvModelPredict w c)
               ∧ model w c = Raised msg.
Proof.
  remember (Error e) as r eqn:Hr0. intros Hobs. revert Hr0.
  induction Hobs as [st|k ks st e' Hc|k ks st oh msg Hc Hm|k ks st oh out e' Hc Hm Hr
                  |k ks st oh out row n evs r Hc Hm Hr Hobs IH]; intros Hr0.
  - discriminate.
  - injection Hr0 as ->. apply calendar_of_error in Hc as [->| ->]; auto.
  - injection Hr0 as <-. right. right. right. by exists msg, (data st), oh.
  - injection Hr0 as ->. apply read_prediction_error in Hr as [->|[->| ->]]; auto.
  - destruct (IH Hr0) as [?|[?|[?|(msg & w & c & -> & Hlast & Hraised)]]]; auto.
    right. right. right. exists msg, w, c. split; [done|]. split; [|done].
    destruct evs as [|ev evs]; [discriminate|]. by rewrite last_cons_cons.
Qed.

End ForecastRuns.

(** X7: a run of [get_predictions], also one that raises, calls the model
    at most once per requested day; the first call receives the seed as it
    was given, and the call at position [i] receives the calendar feature
    of day [start_date + i]. *)
Theorem get_predictions_calls model data0 start H t evs r :
  get_predictions model data0 start H t = (t ++ evs, r) →
  (length evs ≤ Z.to_nat H)%nat
  ∧ (∀ e, evs !! 0%nat = Some e → ∃ c, e = EvModelPredict data0 c)
  ∧ ∀ i e, evs !! i = Some e →
      ∃ w c date, e = EvModelPredict w c
                  ∧ add_days start i = Ok date ∧ one_hot_date date = Ok c.
Proof.
  intros Hrun.
  destruct (get_predictions_obs model data0 start H t) as (evs0 & r0 & Hobs & Heq).
  rewrite Heq in Hrun. injection Hrun as Hevs _. apply app_inv_head in Hevs. subst evs0.
  destruct (loop_obs_events _ _ _ _ _ _ Hobs) as (Hlen & _ & Hev).
  unfold py_range in *. rewrite length_seq in Hlen. split; [done|]. split.
  - intros e He. destruct evs as [|ev evs']; [discriminate|]. injection He as ->.
    apply loop_obs_head in Hobs as (? & ? & c & _ & _ & ->). by exists c.
  - intros i e He. destruct (Hev i e He) as (w & c & k & -> & Hk & Hc).
    apply lookup_seq in Hk as [-> _]. simpl in Hc. unfold calendar_of in Hc.
    destruct (add_days start i) as [date|e'] eqn:Hd; [|discriminate].
    by exists w, c, date.
Qed.

(** X7 on a two-day forecast of the stub model. *)
Lemma get_predictions_calls_witness :
  (length stub_calls ≤ Z.to_nat 2)%nat
  ∧ (∀ e, stub_calls !! 0%nat = Some e → ∃ c, e = EvModelPredict [1; 2; 4] c)
  ∧ ∀ i e, stub_calls !! i = Some e →
      ∃ w c date, e = EvModelPredict w c
                  ∧ add_days (mkdate 2021 3 1) i = Ok date ∧ one_hot_date date = Ok c.
Proof.
  apply (get_predictions_calls stub_model [1; 2; 4] (mkdate 2021 3 1) 2 [] stub_calls
           (Ok [[FFinite (7 # 2); FFinite (9 # 1)]; [FFinite (9 # 2); FFinite (9 # 1)]])).
  reflexivity.
Defined.

(** X8: [get_predictions] raises only [IndexError], [ValueError],
    [OverflowError], or the exception of the model itself; in the last
    case the raising call is the last one made. *)
Theorem get_predictions_errors model data0 start H t evs e :
  get_predictions model data0 start H t = (t ++ evs, Error e) →
  e = IndexError ∨ e = ValueError ∨ e = OverflowError
  ∨ ∃ msg w c, e = Upstream msg ∧ last evs = Some (EvModelPredict w c)
               ∧ model w c = Raised msg.
Proof.
  intros Hrun.
  destruct (get_predictions_obs model data0 start H t) as (evs0 & r0 & Hobs & Heq).
  rewrite Heq in Hrun. injection Hrun as Hevs Hr. apply app_inv_head in Hevs. subst evs0.
  destruct r0 as [st|e0]; [discriminate|]. injection Hr as ->.
  by eapply loop_obs_error.
Qed.

(** X9: when [get_predictions] returns for a horizon [H'], it also
    returns for every shorter horizon [H], with exactly the first [H]
    predictions and a prefix of the model calls. *)
Theorem get_predictions_prefix model data0 start H H' t t' preds' :
  H ≤ H' →
  get_predictions model data0 start H' t = (t', Ok preds') →
  ∃ evs, get_predictions model data0 start H t
         = (t ++ evs, Ok (take (Z.to_nat H) preds'))
         ∧ t ++ evs `prefix_of` t'.
Proof.
  intros Hle Hrun. unfold get_predictions, bind in *.
  assert (py_range H' = py_range H ++ seq (Z.to_nat H) (Z.to_nat H' - Z.to_nat H)) as Hsplit.
  { unfold py_range. rewrite <- seq_app. f_equal. lia. }
  destruct (forecast_loop model start (py_range H') _ t) as [t1 [st'|e]] eqn:Hbig;
    [|discriminate].
  injection Hrun as <- <-.
  unfold forecast_loop in Hbig. rewrite Hsplit, for_each_app in Hbig. unfold bind in Hbig.
  destruct (forecast_loop_obs model start (py_range H)
              {| predictions := []; data := data0 |} t) as (evs & r & Hsmall & Hobs).
  unfold forecast_loop in Hsmall. rewrite Hsmall in Hbig.
  destruct r as [st|e]; [|discriminate].
  destruct (forecast_loop_obs model start (seq (Z.to_nat H) (Z.to_nat H' - Z.to_nat H))
              st (t ++ evs)) as (evs2 & r2 & Hrest & Hobs2).
  unfold forecast_loop in Hrest. rewrite Hrest in Hbig. injection Hbig as <- ->.
  exists evs. unfold forecast_loop. rewrite Hsmall. split; [|by eexists].
  f_equal.
  apply loop_obs_ok in Hobs as (rows & Hp & Hlen & _).
  apply loop_obs_ok in Hobs2 as (rows2 & Hp2 & _ & _).
  simpl in Hp. rewrite Hp2, Hp.
  unfold py_range in Hlen. rewrite length_seq in Hlen.
  rewrite take_app_length'; done.
Qed.

(** X9 for horizons of one and two days. *)
Lemma get_predictions_prefix_witness :
  ∃ evs, get_predictions stub_model [1; 2; 4] (mkdate 2021 3 1) 1 []
         = ([] ++ evs,
            Ok (take (Z.to_nat 1)
                  [[FFinite (7 # 2); FFinite (9 # 1)]; [FFinite (9 # 2); FFinite (9 # 1)]]))
         ∧ [] ++ evs `prefix_of` stub_calls.
Proof.
  apply (get_predictions_prefix stub_model [1; 2; 4] (mkdate 2021 3 1) 1 2 []);
    [lia|reflexivity].
Defined.

(** ** Reading a successful run backwards *)

Lemma bind_inv_ok {A B} (m : M A) (k : A → M B) t t' b :
  bind m k t = (t', Ok b) → ∃ a t1, m t = (t1, Ok a) ∧ k a t1 = (t', Ok b).
Proof. unfold bind. destruct (m t) as [t1 [a|e]]; [eauto|discriminate]. Qed.

Lemma bind_inv_error {A B} (m : M A) (k : A → M B) t t' e :
  bind m k t = (t', Error e) →
  m t = (t', Error e) ∨ ∃ a t1, m t = (t1, Ok a) ∧ k a t1 = (t', Error e).
Proof. unfold bind. destruct (m t) as [t1 [a|e']]; [eauto|]. intros [= <- <-]. by left. Qed.

Lemma lift_inv {A} (r : result A) t t' r' : lift r t = (t', r') → t' = t ∧ r' = r.
Proof. unfold lift. by intros [= <- <-]. Qed.

Lemma ret_inv {A} (a : A) t t' r' : ret a t = (t', r') → t' = t ∧ r' = Ok a.
Proof. unfold ret. by intros [= <- <-]. Qed.

Lemma call_inv_ok {A} ev (r : external A) t t' a :
  call ev r t = (t', Ok a) → t' = t ++ [ev] ∧ r = Returned a.
Proof. unfold call. destruct r; [|discriminate]. by intros [= <- <-]. Qed.

Lemma call_trace {A} ev (r : external A) t t' r' :
  call ev r t = (t', r') → t' = t ++ [ev].
Proof. unfold call. by intros [= <- _]. Qed.

Section Horizon.
Variable strptime : string → result datetime.
Variable historicdata : list datetime.

Lemma get_historic_data_year_eq start_date t :
  get_historic_data_year strptime historicdata start_date t =
  match strptime start_date with
  | Error e => (t, Error e)
  | Ok d =>
      (t ++ [EvSelectYear (month d) (day d)],
       match latest (filter (fun r => month r = month d ∧ day d ≤ day r)
                            historicdata) with
       | Some best => Ok (year best)
       | None => Error (NoHistoricYear start_date)
       end)
  end.
Proof.
  unfold get_historic_data_year, select_historic_year, bind, lift, call, raise.
  destruct (strptime start_date) as [d|e]; [|done].
  by destruct (latest _) as [best|].
Qed.

Lemma get_historic_data_year_ok start_date t t' y :
  get_historic_data_year strptime historicdata start_date t = (t', Ok y) →
  ∃ d best, strptime start_date = Ok d
    ∧ latest (filter (fun r => month r = month d ∧ day d ≤ day r) historicdata)
      = Some best
    ∧ y = year best
    ∧ t' = t ++ [EvSelectYear (month d) (day d)].
Proof.
  rewrite get_historic_data_year_eq.
  destruct (strptime start_date) as [d|e]; [|discriminate].
  destruct (latest _) as [best|] eqn:Hbest; [|discriminate].
  intros [= <- <-]. by exists d, best.
Qed.

Lemma get_historic_data_year_trace start_date t t' r :
  get_historic_data_year strptime historicdata start_date t = (t', r) →
  t' = t ∨ ∃ m d, t' = t ++ [EvSelectYear m d].
Proof.
  rewrite get_historic_data_year_eq.
  destruct (strptime start_date) as [d|e]; intros [= <- _]; [right|left]; eauto.
Qed.

Lemma predict_horizon_ok self t t' h :
  predict_horizon strptime historicdata self t = (t', Ok h) →
  ∃ first last a b y hend hstart,
    py_index (intervals self) 0 = Ok first
    ∧ strptime (fst first) = Ok a
    ∧ py_index (intervals self) (-1) = Ok last
    ∧ strptime (snd last) = Ok b
    ∧ get_historic_data_year strptime historicdata (fst first) t = (t', Ok y)
    ∧ replace_year a y = Ok hend
    ∧ sub_days hend (Z.to_nat (Z.max ML_PADDING_LENGTH SIM_PADDING_LENGTH)) = Ok hstart
    ∧ h = {| prediction_start_date := a;
             prediction_interval_length := days_between b a + 1;
             historic_data_interval_length :=
               Z.max ML_PADDING_LENGTH SIM_PADDING_LENGTH;
             historic_data_interval := (hstart, hend) |}.
Proof.
  unfold predict_horizon. intros H.
  apply bind_inv_ok in H as (first & t1 & [-> Hfirst]%lift_inv & H).
  apply bind_inv_ok in H as (a & t1 & [-> Ha]%lift_inv & H).
  apply bind_inv_ok in H as (last & t1 & [-> Hlast]%lift_inv & H).
  apply bind_inv_ok in H as (b & t1 & [-> Hb]%lift_inv & H).
  cbv zeta in H.
  apply bind_inv_ok in H as (first' & t1 & [-> Hfirst']%lift_inv & H).
  apply bind_inv_ok in H as (y & t1 & Hyear & H).
  apply bind_inv_ok in H as (first'' & t2 & [-> Hfirst'']%lift_inv & H).
  apply bind_inv_ok in H as (a' & t2 & [-> Ha']%lift_inv & H).
  apply bind_inv_ok in H as (hend & t2 & [-> Hhend]%lift_inv & H).
  apply bind_inv_ok in H as (hstart & t2 & [-> Hhstart]%lift_inv & H).
  apply ret_inv in H as [-> [= ->]].
  assert (first' = first) as -> by congruence.
  assert (first'' = first) as -> by congruence.
  assert (a' = a) as -> by congruence.
  by exists first, last, a, b, y, hend, hstart.
Qed.

Lemma replace_year_ok d y d' :
  replace_year d y = Ok d' →
  valid_date d' = true ∧ d' = mkdate y (month d) (day d).
Proof.
  unfold replace_year. destruct (valid_date _) eqn:Hv; [|discriminate].
  by intros [= <-].
Qed.

(** X10: whenever lines 71-80 of [predict] go through, the historic
    interval is 30 days long and ends on a valid date, so building the
    daily series over it never raises: it has 30 counts, all of which seed
    the model, and the last 7 of which pad the simulation series. *)
Theorem historic_window_is_thirty_days self t t' h :
  predict_horizon strptime historicdata self t = (t', Ok h) →
  historic_data_interval_length h = 30
  ∧ valid_date (snd (historic_data_interval h)) = true
  ∧ add_days (fst (historic_data_interval h)) 30 = Ok (snd (historic_data_interval h))
  ∧ ∀ referral_data, ∃ sorted,
      sort_referral_data referral_data (fst (historic_data_interval h))
                         (historic_data_interval_length h) = Ok sorted
      ∧ length sorted = 30%nat
      ∧ py_slice_from sorted (- ML_PADDING_LENGTH) = sorted
      ∧ length (padding_of sorted) = 7%nat.
Proof.
  intros Hh.
  apply predict_horizon_ok in Hh
    as (first & last & a & b & y & hend & hstart & _ & _ & _ & _ & _ & Hrep & Hsub & ->).
  apply replace_year_ok in Hrep as [Hv _].
  cbn [historic_data_interval historic_data_interval_length fst snd].
  change (Z.to_nat (Z.max ML_PADDING_LENGTH SIM_PADDING_LENGTH)) with 30%nat in Hsub.
  pose proof (add_sub_days _ _ _ Hv Hsub) as Hadd.
  split; [reflexivity|]. split; [exact Hv|]. split; [exact Hadd|].
  intros referral_data.
  destruct (add_days_ok_le hstart 30 29 hend) as [dlast Hlast]; [lia|exact Hadd|].
  change (Z.max ML_PADDING_LENGTH SIM_PADDING_LENGTH) with 30.
  exists (map (fun key => events_on key referral_data) (window_keys hstart 30)).
  split; [exact (sort_referral_data_ok referral_data hstart 30 dlast Hlast)|].
  destruct (window_keys_lookup hstart 30 dlast Hlast) as [Hlen _].
  change (Z.to_nat 30) with 30%nat in Hlen.
  assert (length (map (fun key => events_on key referral_data) (window_keys hstart 30))
          = 30%nat) as Hlen' by (rewrite length_map; exact Hlen).
  split; [exact Hlen'|]. split.
  - unfold py_slice_from, ML_PADDING_LENGTH. rewrite Hlen'.
    change (Z.to_nat (if - (30) <? 0 then Z.max 0 (- (30) + Z.of_nat 30) else - (30)))
      with 0%nat.
    apply drop_0.
  - rewrite padding_of_length, Hlen'. reflexivity.
Qed.

(** X11: when the historic table holds valid dates and the start date is
    a valid date, the year found by [get_historic_data_year] can always be
    put into the start date: [replace(year=...)] on line 78 does not
    raise. *)
Theorem historic_end_date_exists start_date d t t' y :
  Forall (fun r => valid_date r = true) historicdata →
  strptime start_date = Ok d →
  valid_date d = true →
  get_historic_data_year strptime historicdata start_date t = (t', Ok y) →
  replace_year d y = Ok (mkdate y (month d) (day d)).
Proof.
  intros Hall Hd Hv Hy.
  apply get_historic_data_year_ok in Hy as (d' & best & Hd' & Hbest & -> & _).
  assert (d' = d) as -> by congruence.
  pose proof (latest_spec (filter (fun r => month r = month d ∧ day d ≤ day r)
                                  historicdata)) as Hl.
  rewrite Hbest in Hl. destruct Hl as [Hin _].
  apply list_elem_of_filter in Hin as [[Hm Hday] Hin].
  rewrite Forall_forall in Hall. specialize (Hall best Hin).
  rewrite valid_date_spec in Hall, Hv.
  unfold replace_year.
  assert (valid_date (mkdate (year best) (month d) (day d)) = true) as ->; [|done].
  rewrite valid_date_spec. simpl. rewrite <- Hm. lia.
Qed.

(** X12: the forecast starts on the first interval's start date and its
    length is the number of days up to the last interval's end date, both
    included, so its last day is that end date; when the end lies before
    the start the forecast is empty and no model call is made. *)
Theorem forecast_days_span_intervals self t t' h first last a b :
  predict_horizon strptime historicdata self t = (t', Ok h) →
  py_index (intervals self) 0 = Ok first →
  py_index (intervals self) (-1) = Ok last →
  strptime (fst first) = Ok a →
  strptime (snd last) = Ok b →
  valid_date a = true →
  valid_date b = true →
  prediction_start_date h = a
  ∧ prediction_interval_length h = toordinal b - toordinal a + 1
  ∧ (toordinal a ≤ toordinal b →
     add_days a (Z.to_nat (prediction_interval_length h) - 1) = Ok b)
  ∧ (toordinal b < toordinal a →
     ∀ model data0 t0,
       get_predictions model data0 (prediction_start_date h)
                       (prediction_interval_length h) t0 = (t0, Ok [])).
Proof.
  intros Hh Hfirst Hlast Ha Hb Hva Hvb.
  apply predict_horizon_ok in Hh
    as (first' & last' & a' & b' & y & hend & hstart
        & Hfirst' & Ha' & Hlast' & Hb' & _ & _ & _ & ->).
  assert (first' = first) as -> by congruence.
  assert (last' = last) as -> by congruence.
  assert (a' = a) as -> by congruence.
  assert (b' = b) as -> by congruence.
  simpl. unfold days_between. split; [done|]. split; [done|]. split.
  - intros Hle. apply add_days_reaches; [done|done|lia].
  - intros Hlt model data0 t0. unfold get_predictions, py_range.
    replace (Z.to_nat (toordinal b - toordinal a + 1)) with 0%nat by lia. done.
Qed.

Lemma predict_horizon_trace self t t' r :
  predict_horizon strptime historicdata self t = (t', r) →
  t' = t ∨ ∃ m d, t' = t ++ [EvSelectYear m d].
Proof.
  unfold predict_horizon, bind, lift, ret.
  destruct (py_index (intervals self) 0) as [first|e]; [|intros [= <- _]; by left].
  destruct (strptime first.1) as [a|e]; [|intros [= <- _]; by left].
  destruct (py_index (intervals self) (-1)) as [last|e]; [|intros [= <- _]; by left].
  destruct (strptime last.2) as [b|e]; [|intros [= <- _]; by left].
  destruct (get_historic_data_year _ _ _ t) as [t1 r1] eqn:Hy.
  apply get_historic_data_year_trace in Hy.
  destruct r1 as [y|e]; [|by intros [= <- _]].
  destruct (replace_year a y) as [hend|e]; [|by intros [= <- _]].
  destruct (sub_days hend _) as [hstart|e]; by intros [= <- _].
Qed.

End Horizon.

(** X13: when lines 71-80 of [predict] raise, [predict] raises the same
    error, having made at most the one historic-year query: the clinic
    settings are not read and no class is touched. *)
Theorem predict_stops_without_horizon strptime historicdata models clinic_settings
    get_referral_data load_model gen_min_interval_slots self t t' e :
  predict_horizon strptime historicdata self t = (t', Error e) →
  predict strptime historicdata models clinic_settings get_referral_data
          load_model gen_min_interval_slots self t = (t', Error e)
  ∧ (t' = t ∨ ∃ m d, t' = t ++ [EvSelectYear m d]).
Proof.
  intros Hh. split.
  - unfold predict. by apply bind_error.
  - by eapply predict_horizon_trace.
Qed.

(** X10 for the stub controller. *)
Lemma historic_window_is_thirty_days_witness :
  historic_data_interval_length stub_horizon = 30
  ∧ valid_date (snd (historic_data_interval stub_horizon)) = true
  ∧ add_days (fst (historic_data_interval stub_horizon)) 30
    = Ok (snd (historic_data_interval stub_horizon))
  ∧ ∀ referral_data, ∃ sorted,
      sort_referral_data referral_data (fst (historic_data_interval stub_horizon))
                         (historic_data_interval_length stub_horizon) = Ok sorted
      ∧ length sorted = 30%nat
      ∧ py_slice_from sorted (- ML_PADDING_LENGTH) = sorted
      ∧ length (padding_of sorted) = 7%nat.
Proof.
  apply (historic_window_is_thirty_days stub_strptime stub_historicdata
           stub_controller [] [EvSelectYear 3 1] stub_horizon).
  vm_compute. reflexivity.
Defined.

(** X11 for 1 March 2021 against three historic records. *)
Lemma historic_end_date_exists_witness :
  replace_year (mkdate 2021 3 1) 2020 = Ok (mkdate 2020 (month (mkdate 2021 3 1))
                                                   (day (mkdate 2021 3 1))).
Proof.
  apply (historic_end_date_exists stub_strptime stub_historicdata "2021-03-01"
           (mkdate 2021 3 1) [] [EvSelectYear 3 1] 2020).
  - repeat constructor.
  - reflexivity.
  - reflexivity.
  - vm_compute. reflexivity.
Defined.

(** X12 for the interval 1 March to 3 March 2021. *)
Lemma forecast_days_span_intervals_witness :
  prediction_start_date stub_horizon = mkdate 2021 3 1
  ∧ prediction_interval_length stub_horizon
    = toordinal (mkdate 2021 3 3) - toordinal (mkdate 2021 3 1) + 1
  ∧ (toordinal (mkdate 2021 3 1) ≤ toordinal (mkdate 2021 3 3) →
     add_days (mkdate 2021 3 1)
              (Z.to_nat (prediction_interval_length stub_horizon) - 1)
     = Ok (mkdate 2021 3 3))
  ∧ (toordinal (mkdate 2021 3 3) < toordinal (mkdate 2021 3 1) →
     ∀ model data0 t0,
       get_predictions model data0 (prediction_start_date stub_horizon)
                       (prediction_interval_length stub_horizon) t0 = (t0, Ok [])).
Proof.
  apply (forecast_days_span_intervals stub_strptime stub_historicdata
           stub_controller [] [EvSelectYear 3 1] stub_horizon
           ("2021-03-01"%string, "2021-03-03"%string)
           ("2021-03-01"%string, "2021-03-03"%string)
           (mkdate 2021 3 1) (mkdate 2021 3 3)); reflexivity.
Defined.

(** X13 with an empty historic table. *)
Lemma predict_stops_without_horizon_witness :
  predict stub_strptime [] stub_models stub_settings stub_referrals
          stub_loader stub_simulation stub_controller []
  = ([EvSelectYear 3 1], Error (NoHistoricYear "2021-03-01"))
  ∧ ([EvSelectYear 3 1] = [] ∨ ∃ m d, [EvSelectYear 3 1] = [] ++ [EvSelectYear m d]).
Proof.
  apply (predict_stops_without_horizon stub_strptime [] stub_models stub_settings
           stub_referrals stub_loader stub_simulation stub_controller []).
  vm_compute. reflexivity.
Defined.

(** ** One triage class *)

Lemma sort_referral_data_length referral_data start L sorted :
  sort_referral_data referral_data start L = Ok sorted →
  length sorted = Z.to_nat L.
Proof.
  unfold sort_referral_data.
  destruct (res_map _ _) as [date_list|e] eqn:Hd; [|discriminate].
  cbn [rbind]. intros [= <-].
  apply res_map_lookup in Hd as [Hlen _].
  rewrite length_map, Hlen. unfold py_range. apply length_seq.
Qed.

Lemma count_kind_app k evs1 evs2 :
  count_kind k (evs1 ++ evs2) = (count_kind k evs1 + count_kind k evs2)%nat.
Proof. induction evs1 as [|e evs1 IH]; simpl; [done|]. rewrite IH. lia. Qed.

Lemma count_kind_calls k evs :
  Forall (fun e => kind_of e = KModelPredict) evs →
  count_kind k evs = if kind_eqb KModelPredict k then length evs else 0%nat.
Proof.
  induction 1 as [|e evs He _ IH]; cbn [count_kind length].
  - by destruct k.
  - rewrite IH, He. by destruct k.
Qed.

Lemma get_predictions_ok model data0 start H t t' preds :
  get_predictions model data0 start H t = (t', Ok preds) →
  ∃ evs, t' = t ++ evs
    ∧ length evs = Z.to_nat H
    ∧ length preds = Z.to_nat H
    ∧ Forall (fun e => kind_of e = KModelPredict) evs.
Proof.
  intros Hrun.
  destruct (get_predictions_obs model data0 start H t) as (evs & r & Hobs & Heq).
  rewrite Heq in Hrun. destruct r as [st|e]; [|discriminate].
  injection Hrun as <- <-. exists evs. split; [done|].
  destruct (loop_obs_events _ _ _ _ _ _ Hobs) as (_ & Hlen & Hev).
  apply loop_obs_ok in Hobs as (rows & Hp & Hrows & _).
  unfold py_range in *. rewrite length_seq in *.
  split; [by apply (Hlen st)|]. split; [by rewrite Hp|].
  apply Forall_lookup. intros i e He.
  by destruct (Hev i e He) as (w & c & k & -> & _).
Qed.

Section OneClass.
Variable models : list model_row.
Variable get_referral_data : Z → Z → datetime * datetime → external (list referral).
Variable load_model : string → external Model.
Variable gen_min_interval_slots : sim_request → external (list SimulationResults).

Lemma get_model_ok clinic tc t t' m :
  get_model models load_model clinic tc t = (t', Ok m) →
  ∃ row, head (filter (fun r => mr_clinic_id r = clinic
                                ∧ mr_severity r = tc_severity tc
                                ∧ mr_in_use r = true) models) = Some row
    ∧ load_model (mr_file_path row) = Returned m
    ∧ t' = t ++ [EvSelectModel clinic (tc_severity tc);
                 EvLoadModel (mr_file_path row)].
Proof.
  unfold get_model, select_model_paths, bind, call, lift, raise.
  destruct (filter _ models) as [|row rows]; simpl; [discriminate|].
  destruct (load_model (mr_file_path row)) as [m'|msg] eqn:Hl; [|discriminate].
  rewrite <- app_assoc. intros [= <- <-]. by exists row.
Qed.

Lemma predict_class_ok self h response tc t t' response' :
  predict_class models get_referral_data load_model gen_min_interval_slots
                self h response tc t = (t', Ok response') →
  ∃ referral_data sorted row model evs preds sim_results,
    get_referral_data (clinic_id self) (tc_severity tc) (historic_data_interval h)
      = Returned referral_data
    ∧ sort_referral_data referral_data (fst (historic_data_interval h))
                         (historic_data_interval_length h) = Ok sorted
    ∧ head (filter (fun r => mr_clinic_id r = clinic_id self
                             ∧ mr_severity r = tc_severity tc
                             ∧ mr_in_use r = true) models) = Some row
    ∧ load_model (mr_file_path row) = Returned model
    ∧ get_predictions model (py_slice_from sorted (- ML_PADDING_LENGTH))
                      (prediction_start_date h) (prediction_interval_length h)
                      (t ++ [EvReferralData (tc_severity tc) (historic_data_interval h);
                             EvSelectModel (clinic_id self) (tc_severity tc);
                             EvLoadModel (mr_file_path row)])
      = ((t ++ [EvReferralData (tc_severity tc) (historic_data_interval h);
                EvSelectModel (clinic_id self) (tc_severity tc);
                EvLoadModel (mr_file_path row)]) ++ evs, Ok preds)
    ∧ length evs = Z.to_nat (prediction_interval_length h)
    ∧ length preds = Z.to_nat (prediction_interval_length h)
    ∧ Forall (fun e => kind_of e = KModelPredict) evs
    ∧ gen_min_interval_slots (sim_request_of self tc sorted preds)
      = Returned sim_results
    ∧ response' = <[tc_name tc := format_results sim_results (intervals self)]> response
    ∧ t' = t ++ [EvReferralData (tc_severity tc) (historic_data_interval h);
                 EvSelectModel (clinic_id self) (tc_severity tc);
                 EvLoadModel (mr_file_path row)]
             ++ evs
             ++ [EvSimulate (sim_request_of self tc sorted preds); EvPrint response'].
Proof.
  unfold predict_class. intros H.
  apply bind_inv_ok in H as (referral_data & t1 & [-> Hrefs]%call_inv_ok & H).
  apply bind_inv_ok in H as (sorted & t1 & [-> Hsorted]%lift_inv & H).
  apply bind_inv_ok in H as (model & t1 & Hmodel & H).
  apply get_model_ok in Hmodel as (row & Hrow & Hload & ->).
  rewrite <- app_assoc in H. cbn [app] in H.
  apply bind_inv_ok in H as (preds & t1 & Hpreds & H).
  pose proof Hpreds as Hpreds'.
  apply get_predictions_ok in Hpreds' as (evs & -> & Hevs & Hlen & Hkinds).
  cbv zeta in H.
  apply bind_inv_ok in H as (sim_results & t1 & [-> Hsim]%call_inv_ok & H).
  apply bind_inv_ok in H as (u & t1 & [-> _]%call_inv_ok & H).
  apply ret_inv in H as [-> [= ->]].
  exists referral_data, sorted, row, model, evs, preds, sim_results.
  repeat (split; [done|]).
  rewrite <- !app_assoc. reflexivity.
Qed.

(** X14: a class that goes through stores its records under its name and
    leaves the other names untouched; there is one record per pair of
    simulation result and interval, as many as the shorter of the two
    lists, and record [k] carries the slots of result [k] with the start
    and end of interval [k]. *)
Theorem predict_class_response self h response tc t t' response' :
  predict_class models get_referral_data load_model gen_min_interval_slots
                self h response tc t = (t', Ok response') →
  ∃ req sim_results recs,
    EvSimulate req ∈ t'
    ∧ gen_min_interval_slots req = Returned sim_results
    ∧ response' !! tc_name tc = Some recs
    ∧ (∀ name, name ≠ tc_name tc → response' !! name = response !! name)
    ∧ length recs = Nat.min (length sim_results) (length (intervals self))
    ∧ ∀ k rec, recs !! k = Some rec →
        ∃ sim_result interval,
          sim_results !! k = Some sim_result
          ∧ intervals self !! k = Some interval
          ∧ rec = {| slots := expected_slots sim_result;
                     start_date := fst interval;
                     end_date := snd interval |}.
Proof.
  intros H.
  apply predict_class_ok in H
    as (referral_data & sorted & row & model & evs & preds & sim_results
        & _ & _ & _ & _ & _ & _ & _ & _ & Hsim & -> & ->).
  exists (sim_request_of self tc sorted preds), sim_results,
         (format_results sim_results (intervals self)).
  split.
  { rewrite !elem_of_app. do 3 right. constructor. }
  split; [done|]. split; [apply lookup_insert_eq|].
  split; [intros name Hne; by apply lookup_insert_ne|].
  unfold format_results. split; [by rewrite length_map, length_zip|].
  intros k rec Hk. rewrite list_lookup_fmap in Hk.
  destruct (zip sim_results (intervals self) !! k) as [[s iv]|] eqn:Hz; [|discriminate].
  injection Hk as <-.
  apply lookup_zip_with_Some in Hz as (s' & iv' & [= <- <-] & Hs & Hiv).
  by exists s, iv.
Qed.

Lemma for_each_classes self h classes response t t' response' :
  for_each (predict_class models get_referral_data load_model
                          gen_min_interval_slots self h)
           classes response t = (t', Ok response') →
  ∃ evs, t' = t ++ evs
    ∧ (∀ k, count_kind k evs =
            (length classes *
             match k with
             | KSelectYear | KClinicData => 0
             | KModelPredict => Z.to_nat (prediction_interval_length h)
             | _ => 1
             end)%nat)
    ∧ dom response' = dom response ∪ list_to_set (tc_name <$> classes)
    ∧ ∀ P : list slot_record → Prop,
        (∀ sim_results, P (format_results sim_results (intervals self))) →
        (∀ name recs, response !! name = Some recs → P recs) →
        ∀ name recs, response' !! name = Some recs → P recs.
Proof.
  revert response t. induction classes as [|tc classes IH]; intros response t; simpl.
  - intros [= <- <-]. exists []. rewrite app_nil_r. split; [done|].
    split; [done|]. split; [|by auto].
    by rewrite (right_id_L ∅ (∪)).
  - intros H. apply bind_inv_ok in H as (response1 & t1 & Hclass & Hrest).
    apply predict_class_ok in Hclass
      as (referral_data & sorted & row & model & evs & preds & sim_results
          & _ & _ & _ & _ & _ & Hlen & _ & Hkinds & _ & -> & ->).
    apply IH in Hrest as (evs' & -> & Hcount & Hdom & Hall).
    eexists. split; [by rewrite <- app_assoc|]. split; [|split].
    + intros k. rewrite !count_kind_app, (count_kind_calls k evs Hkinds), Hcount, Hlen.
      destruct k; simpl; lia.
    + rewrite Hdom, dom_insert_L.
      rewrite (comm_L (∪) {[tc_name tc]} (dom response)).
      by rewrite <- (assoc_L (∪)).
    + intros P Hfmt Hold name recs Hlook. eapply (Hall P Hfmt); [|exact Hlook].
      intros name' recs'. destruct (decide (tc_name tc = name')) as [<-|Hne].
      * rewrite lookup_insert_eq. intros [= <-]. apply Hfmt.
      * rewrite lookup_insert_ne by done. apply Hold.
Qed.

End OneClass.

(** X8 with a model that raises on its first call. *)
Lemma get_predictions_errors_witness :
  Upstream "resource exhausted" = IndexError
  ∨ Upstream "resource exhausted" = ValueError
  ∨ Upstream "resource exhausted" = OverflowError
  ∨ ∃ msg w c, Upstream "resource exhausted" = Upstream msg
               ∧ last [EvModelPredict [1; 2; 4] (two_hot 3 13)]
                 = Some (EvModelPredict w c)
               ∧ raising_model w c = Raised msg.
Proof.
  apply (get_predictions_errors raising_model [1; 2; 4] (mkdate 2021 3 1) 2 []).
  reflexivity.
Defined.

(** X14 for the first class of the stub clinic. *)
Lemma predict_class_response_witness :
  ∃ req sim_results recs,
    EvSimulate req ∈ fst class_a_run
    ∧ stub_simulation req = Returned sim_results
    ∧ class_a_response !! tc_name class_a = Some recs
    ∧ (∀ name, name ≠ tc_name class_a →
         class_a_response !! name = (∅ : gmap string (list slot_record)) !! name)
    ∧ length recs = Nat.min (length sim_results) (length (intervals stub_controller))
    ∧ ∀ k rec, recs !! k = Some rec →
        ∃ sim_result interval,
          sim_results !! k = Some sim_result
          ∧ intervals stub_controller !! k = Some interval
          ∧ rec = {| slots := expected_slots sim_result;
                     start_date := fst interval;
                     end_date := snd interval |}.
Proof.
  apply (predict_class_response ready_models stub_referrals stub_loader
           stub_simulation stub_controller stub_horizon ∅ class_a
           [EvSelectYear 3 1; EvClinicData 1]).
  vm_compute. reflexivity.
Defined.

(** ** The whole run *)

(** X15: a run of [predict] that returns has made exactly one
    historic-year query and one read of the clinic settings, then for each
    class one referral query, one model query, one model load, one
    simulation and one print, and one model call per class and forecast
    day. *)
Theorem predict_call_counts strptime historicdata models clinic_settings
    get_referral_data load_model gen_min_interval_slots self t t' response :
  predict strptime historicdata models clinic_settings get_referral_data
          load_model gen_min_interval_slots self t = (t', Ok response) →
  ∃ evs settings h t0,
    t' = t ++ evs
    ∧ clinic_settings (clinic_id self) = Returned settings
    ∧ predict_horizon strptime historicdata self t = (t0, Ok h)
    ∧ ∀ k, count_kind k evs =
           match k with
           | KSelectYear | KClinicData => 1%nat
           | KModelPredict =>
               (length settings * Z.to_nat (prediction_interval_length h))%nat
           | _ => length settings
           end.
Proof.
  unfold predict. intros H.
  apply bind_inv_ok in H as (h & t0 & Hh & H).
  apply bind_inv_ok in H as (settings & t1 & [-> Hsettings]%call_inv_ok & H).
  apply for_each_classes in H as (evs & -> & Hcount & _).
  pose proof Hh as Hh'.
  apply predict_horizon_ok in Hh'
    as (first & last & a & b & y & hend & hstart & _ & _ & _ & _ & Hy & _).
  apply get_historic_data_year_ok in Hy as (d & best & _ & _ & _ & ->).
  exists ([EvSelectYear (month d) (day d); EvClinicData (clinic_id self)] ++ evs),
         settings, h, (t ++ [EvSelectYear (month d) (day d)]).
  split; [by rewrite <- !app_assoc|]. split; [done|]. split; [done|].
  intros k. rewrite count_kind_app, Hcount. destruct k; simpl; lia.
Qed.

(** X15 for the run of the stub controller. *)
Lemma predict_call_counts_witness :
  ∃ evs settings h t0,
    fst ready_run = [] ++ evs
    ∧ stub_settings (clinic_id stub_controller) = Returned settings
    ∧ predict_horizon stub_strptime stub_historicdata stub_controller [] = (t0, Ok h)
    ∧ ∀ k, count_kind k evs =
           match k with
           | KSelectYear | KClinicData => 1%nat
           | KModelPredict =>
               (length settings * Z.to_nat (prediction_interval_length h))%nat
           | _ => length settings
           end.
Proof.
  apply (predict_call_counts stub_strptime stub_historicdata ready_models
           stub_settings stub_referrals stub_loader stub_simulation
           stub_controller [] (fst ready_run) ready_response).
  vm_compute. reflexivity.
Defined.

(** X16: the response of [predict] has exactly the names of the clinic's
    classes as keys; every list in it is no longer than the list of
    intervals, and its record [k] carries the start and end of interval
    [k]. *)
Theorem predict_response strptime historicdata models clinic_settings
    get_referral_data load_model gen_min_interval_slots self t t' response :
  predict strptime historicdata models clinic_settings get_referral_data
          load_model gen_min_interval_slots self t = (t', Ok response) →
  ∃ settings,
    clinic_settings (clinic_id self) = Returned settings
    ∧ dom response = list_to_set (tc_name <$> settings)
    ∧ ∀ name recs, response !! name = Some recs →
        (length recs ≤ length (intervals self))%nat
        ∧ ∀ k rec, recs !! k = Some rec →
            ∃ interval, intervals self !! k = Some interval
                        ∧ start_date rec = fst interval
                        ∧ end_date rec = snd interval.
Proof.
  unfold predict. intros H.
  apply bind_inv_ok in H as (h & t0 & Hh & H).
  apply bind_inv_ok in H as (settings & t1 & [-> Hsettings]%call_inv_ok & H).
  apply for_each_classes in H as (evs & -> & _ & Hdom & Hall).
  exists settings. split; [done|]. split.
  { by rewrite Hdom, dom_empty_L, (left_id_L ∅ (∪)). }
  apply (Hall (fun recs =>
                 (length recs ≤ length (intervals self))%nat
                 ∧ ∀ k rec, recs !! k = Some rec →
                     ∃ interval, intervals self !! k = Some interval
                                 ∧ start_date rec = fst interval
                                 ∧ end_date rec = snd interval)).
  - intros sim_results. unfold format_results. split.
    + rewrite length_map, length_zip. lia.
    + intros k rec Hk. rewrite list_lookup_fmap in Hk.
      destruct (zip sim_results (intervals self) !! k) as [[s iv]|] eqn:Hz;
        [|discriminate].
      injection Hk as <-.
      apply lookup_zip_with_Some in Hz as (s' & iv' & [= <- <-] & Hs & Hiv).
      by exists iv.
  - intros name recs. by rewrite lookup_empty.
Qed.

(** X16 for the run of the stub controller. *)
Lemma predict_response_witness :
  ∃ settings,
    stub_settings (clinic_id stub_controller) = Returned settings
    ∧ dom ready_response = list_to_set (tc_name <$> settings)
    ∧ ∀ name recs, ready_response !! name = Some recs →
        (length recs ≤ length (intervals stub_controller))%nat
        ∧ ∀ k rec, recs !! k = Some rec →
            ∃ interval, intervals stub_controller !! k = Some interval
                        ∧ start_date rec = fst interval
                        ∧ end_date rec = snd interval.
Proof.
  apply (predict_response stub_strptime stub_historicdata ready_models
           stub_settings stub_referrals stub_loader stub_simulation
           stub_controller [] (fst ready_run) ready_response).
  vm_compute. reflexivity.
Defined.

(** X17: inside [predict], the simulation of a class receives a series of
    exactly [7 + H + 1] entries, [H] being the number of forecast days,
    tagged [(7, 0)], with the intervals of the request, a window of
    [duration * 7], a final window twice as long, and the index range
    [0 .. len(intervals) - 1]. *)
Theorem simulation_request_shape strptime historicdata models get_referral_data
    load_model gen_min_interval_slots self t0 t1 h response tc t t' response' :
  predict_horizon strptime historicdata self t0 = (t1, Ok h) →
  predict_class models get_referral_data load_model gen_min_interval_slots
                self h response tc t = (t', Ok response') →
  ∃ req,
    EvSimulate req ∈ t'
    ∧ length (df_data (sim_data_frame req))
      = (7 + Z.to_nat (prediction_interval_length h) + 1)%nat
    ∧ df_padding (sim_data_frame req) = (SIM_PADDING_LENGTH, 0)
    ∧ df_intervals (sim_data_frame req) = intervals self
    ∧ sim_window req = tc_duration tc * 7
    ∧ sim_final_window req = 2 * sim_window req
    ∧ sim_start req = 0
    ∧ sim_end req = Z.of_nat (length (intervals self)) - 1.
Proof.
  intros Hh Hclass.
  apply predict_horizon_ok in Hh
    as (first & last & a & b & y & hend & hstart & _ & _ & _ & _ & _ & _ & _ & ->).
  apply predict_class_ok in Hclass
    as (referral_data & sorted & row & model & evs & preds & sim_results
        & _ & Hsorted & _ & _ & _ & _ & Hlen & _ & _ & _ & ->).
  cbn [historic_data_interval historic_data_interval_length fst
       prediction_interval_length] in *.
  apply sort_referral_data_length in Hsorted.
  change (Z.to_nat (Z.max ML_PADDING_LENGTH SIM_PADDING_LENGTH)) with 30%nat in Hsorted.
  exists (sim_request_of self tc sorted preds).
  split. { rewrite !elem_of_app. do 3 right. constructor. }
  cbn [sim_request_of sim_data_frame build_data_frame df_data df_padding df_intervals
       sim_window sim_final_window sim_start sim_end].
  split.
  { unfold data_frame_data. rewrite !length_app, length_map, padding_of_length, Hsorted, Hlen.
    cbn [length]. lia. }
  repeat split; lia.
Qed.

(** X17 for the first class of the stub clinic. *)
Lemma simulation_request_shape_witness :
  ∃ req,
    EvSimulate req ∈ fst class_a_run
    ∧ length (df_data (sim_data_frame req))
      = (7 + Z.to_nat (prediction_interval_length stub_horizon) + 1)%nat
    ∧ df_padding (sim_data_frame req) = (SIM_PADDING_LENGTH, 0)
    ∧ df_intervals (sim_data_frame req) = intervals stub_controller
    ∧ sim_window req = tc_duration class_a * 7
    ∧ sim_final_window req = 2 * sim_window req
    ∧ sim_start req = 0
    ∧ sim_end req = Z.of_nat (length (intervals stub_controller)) - 1.
Proof.
  apply (simulation_request_shape stub_strptime stub_historicdata ready_models
           stub_referrals stub_loader stub_simulation stub_controller
           [] [EvSelectYear 3 1] stub_horizon ∅ class_a
           [EvSelectYear 3 1; EvClinicData 1] (fst class_a_run) class_a_response).
  - vm_compute. reflexivity.
  - vm_compute. reflexivity.
Defined.

Lemma head_filter_Some {A} (P : A → Prop) `{∀ x, Decision (P x)} (l : list A) x :
  head (filter P l) = Some x →
  ∃ l1 l2, l = l1 ++ x :: l2 ∧ P x ∧ Forall (fun y => ¬ P y) l1.
Proof.
  induction l as [|y l IH]; [discriminate|].
  rewrite filter_cons. destruct (decide (P y)) as [Hy|Hy]; simpl.
  - intros [= <-]. by exists [], l.
  - intros (l1 & l2 & -> & Hx & Hl1)%IH.
    exists (y :: l1), l2. split; [done|]. split; [done|]. by constructor.
Qed.

(** X18: when [get_model] returns, the file it loaded belongs to the
    first row of the model table, in table order, that matches the clinic
    and the severity and is in use; no other query or load was made. *)
Theorem get_model_loads_first_active models load_model clinic tc t t' m :
  get_model models load_model clinic tc t = (t', Ok m) →
  ∃ before row after,
    models = before ++ row :: after
    ∧ mr_clinic_id row = clinic
    ∧ mr_severity row = tc_severity tc
    ∧ mr_in_use row = true
    ∧ Forall (fun r => ¬ (mr_clinic_id r = clinic ∧ mr_severity r = tc_severity tc
                          ∧ mr_in_use r = true)) before
    ∧ load_model (mr_file_path row) = Returned m
    ∧ t' = t ++ [EvSelectModel clinic (tc_severity tc);
                 EvLoadModel (mr_file_path row)].
Proof.
  intros H. apply get_model_ok in H as (row & Hrow & Hload & ->).
  apply head_filter_Some in Hrow as (before & after & -> & (Hc & Hs & Hu) & Hbefore).
  by exists before, row, after.
Qed.

(** X18 for the third class of the stub clinic. *)
Lemma get_model_loads_first_active_witness :
  ∃ before row after,
    stub_models = before ++ row :: after
    ∧ mr_clinic_id row = 1
    ∧ mr_severity row = tc_severity class_c
    ∧ mr_in_use row = true
    ∧ Forall (fun r => ¬ (mr_clinic_id r = 1 ∧ mr_severity r = tc_severity class_c
                          ∧ mr_in_use r = true)) before
    ∧ stub_loader (mr_file_path row) = Returned stub_model
    ∧ [EvSelectModel 1 3; EvLoadModel "elective.h5"]
      = [] ++ [EvSelectModel 1 (tc_severity class_c); EvLoadModel (mr_file_path row)].
Proof.
  apply (get_model_loads_first_active stub_models stub_loader 1 class_c []
           [EvSelectModel 1 3; EvLoadModel "elective.h5"] stub_model).
  reflexivity.
Defined.

Lemma Ok_inj {A} (a b : A) : Ok a = Ok b → a = b.
Proof. by intros [= ->]. Qed.

(** X19: inside [predict], when at least one day is forecast, the first
    model call of a class receives the 30 daily counts of the historic
    window, computed from the referrals returned for that class, together
    with the calendar feature of the start date. *)
Theorem model_seed_is_historic_series strptime historicdata models get_referral_data
    load_model gen_min_interval_slots self t0 t1 h response tc t t' response' :
  predict_horizon strptime historicdata self t0 = (t1, Ok h) →
  predict_class models get_referral_data load_model gen_min_interval_slots
                self h response tc t = (t', Ok response') →
  0 < prediction_interval_length h →
  ∃ referral_data calendar,
    get_referral_data (clinic_id self) (tc_severity tc) (historic_data_interval h)
      = Returned referral_data
    ∧ one_hot_date (prediction_start_date h) = Ok calendar
    ∧ t' !! (length t + 3)%nat
      = Some (EvModelPredict
                (map (fun key => events_on key referral_data)
                     (window_keys (fst (historic_data_interval h)) 30))
                calendar)
    ∧ length (window_keys (fst (historic_data_interval h)) 30) = 30%nat.
Proof.
  intros Hh Hclass Hpos.
  apply predict_horizon_ok in Hh
    as (first & last & a & b & y & hend & hstart & _ & _ & _ & _ & _ & Hrep & Hsub & ->).
  apply predict_class_ok in Hclass
    as (referral_data & sorted & row & model & evs & preds & sim_results
        & Hrefs & Hsorted & _ & _ & Hpreds & Hlen & _ & _ & _ & _ & ->).
  cbn [historic_data_interval historic_data_interval_length fst
       prediction_interval_length prediction_start_date] in *.
  apply replace_year_ok in Hrep as [Hv _].
  change (Z.to_nat (Z.max ML_PADDING_LENGTH SIM_PADDING_LENGTH)) with 30%nat in Hsub.
  pose proof (add_sub_days _ _ _ Hv Hsub) as Hadd.
  destruct (add_days_ok_le hstart 30 29 hend) as [dlast Hlast]; [lia|exact Hadd|].
  change (Z.max ML_PADDING_LENGTH SIM_PADDING_LENGTH) with 30 in Hsorted.
  rewrite (sort_referral_data_ok referral_data hstart 30 dlast Hlast) in Hsorted.
  apply Ok_inj in Hsorted. subst sorted.
  destruct (window_keys_lookup hstart 30 dlast Hlast) as [Hkeys _].
  change (Z.to_nat 30) with 30%nat in Hkeys.
  assert (py_slice_from (map (fun key => events_on key referral_data)
                             (window_keys hstart 30)) (- ML_PADDING_LENGTH)
          = map (fun key => events_on key referral_data) (window_keys hstart 30))
    as Hseed.
  { unfold py_slice_from, ML_PADDING_LENGTH. rewrite length_map, Hkeys.
    change (Z.to_nat (if - (30) <? 0 then Z.max 0 (- (30) + Z.of_nat 30) else - (30)))
      with 0%nat.
    apply drop_0. }
  rewrite Hseed in Hpreds.
  destruct (get_predictions_obs model
              (map (fun key => events_on key referral_data) (window_keys hstart 30))
              a (days_between b a + 1)
              (t ++ [EvReferralData (tc_severity tc) (hstart, hend);
                     EvSelectModel (clinic_id self) (tc_severity tc);
                     EvLoadModel (mr_file_path row)]))
    as (evs0 & r0 & Hobs & Heq).
  rewrite Heq in Hpreds. injection Hpreds as Hevs _.
  apply app_inv_head in Hevs. subst evs0.
  destruct evs as [|ev evs]; [cbn [length] in Hlen; lia|].
  apply loop_obs_head in Hobs as (k & ks & calendar & Hks & Hcal & ->).
  cbn [data] in *.
  unfold py_range in Hks.
  destruct (Z.to_nat (days_between b a + 1)) as [|n]; [discriminate|].
  injection Hks as <- _. unfold calendar_of in Hcal. cbn [add_days rbind] in Hcal.
  exists referral_data, calendar.
  split; [exact Hrefs|]. split; [exact Hcal|]. split; [|exact Hkeys].
  rewrite lookup_app_r by lia.
  replace (length t + 3 - length t)%nat with 3%nat by lia.
  cbn [app lookup list_lookup]. reflexivity.
Qed.

(** X19 for the first class of the stub clinic. *)
Lemma model_seed_is_historic_series_witness :
  ∃ referral_data calendar,
    stub_referrals (clinic_id stub_controller) (tc_severity class_a)
                   (historic_data_interval stub_horizon)
      = Returned referral_data
    ∧ one_hot_date (prediction_start_date stub_horizon) = Ok calendar
    ∧ fst class_a_run !! (length [EvSelectYear 3 1; EvClinicData 1] + 3)%nat
      = Some (EvModelPredict
                (map (fun key => events_on key referral_data)
                     (window_keys (fst (historic_data_interval stub_horizon)) 30))
                calendar)
    ∧ length (window_keys (fst (historic_data_interval stub_horizon)) 30) = 30%nat.
Proof.
  apply (model_seed_is_historic_series stub_strptime stub_historicdata ready_models
           stub_referrals stub_loader stub_simulation stub_controller
           [] [EvSelectYear 3 1] stub_horizon ∅ class_a
           [EvSelectYear 3 1; EvClinicData 1] (fst class_a_run) class_a_response).
  - vm_compute. reflexivity.
  - vm_compute. reflexivity.
  - reflexivity.
Defined.

(** ** The seed and the sliding window *)

Lemma py_int_finite x n :
  py_int x = Ok n →
  ∃ q, x = FFinite q ∧ n = Z.quot (Qnum q) (Z.pos (Qden q)).
Proof. destruct x as [q| |neg]; simpl; [|discriminate..]. intros [= <-]. by exists q. Qed.

Lemma quot_truncates q :
  ((0 <= q → inject_Z (Z.quot (Qnum q) (Z.pos (Qden q))) <= q
              ∧ q < inject_Z (Z.quot (Qnum q) (Z.pos (Qden q)) + 1))
   ∧ (q <= 0 → inject_Z (Z.quot (Qnum q) (Z.pos (Qden q)) - 1) < q
               ∧ q <= inject_Z (Z.quot (Qnum q) (Z.pos (Qden q)))))%Q.
Proof.
  destruct q as [a b]. unfold Qle, Qlt, inject_Z. cbn [Qnum Qden].
  pose proof (Z.quot_rem' a (Z.pos b)) as Hqr.
  split.
  - intros Ha. assert (0 ≤ a) as Ha' by lia.
    pose proof (Z.rem_bound_pos a (Z.pos b) Ha' ltac:(lia)). nia.
  - intros Ha. assert (0 ≤ - a) as Ha' by lia.
    pose proof (Z.rem_bound_pos (- a) (Z.pos b) Ha' ltac:(lia)) as Hb.
    rewrite Z.rem_opp_l' in Hb. nia.
Qed.

(** C6: for two consecutive model calls of one run of [get_predictions],
    the window of the later call is the window of the earlier one without
    its first entry, followed by the first element of the first row the
    model returned for the earlier call, truncated toward zero to an
    integer; with a non-empty seed every window has the length of the
    seed. *)
Theorem window_slides model data0 start H t evs r i w c w' c' :
  get_predictions model data0 start H t = (t ++ evs, r) →
  evs !! i = Some (EvModelPredict w c) →
  evs !! S i = Some (EvModelPredict w' c') →
  (∃ out row q n,
      model w c = Returned out
      ∧ py_index out 0 = Ok row
      ∧ py_index row 0 = Ok (FFinite q)
      ∧ n = Z.quot (Qnum q) (Z.pos (Qden q))
      ∧ (0 <= q → inject_Z n <= q ∧ q < inject_Z (n + 1))%Q
      ∧ (q <= 0 → inject_Z (n - 1) < q ∧ q <= inject_Z n)%Q
      ∧ w' = drop 1 w ++ [n])
  ∧ (data0 ≠ [] → length w = length data0 ∧ length w' = length data0).
Proof.
  intros Hrun Hi HSi.
  destruct (get_predictions_obs model data0 start H t) as (evs0 & r0 & Hobs & Heq).
  rewrite Heq in Hrun. injection Hrun as Hevs _.
  apply app_inv_head in Hevs. subst evs0. split.
  - destruct (loop_obs_slide _ _ _ _ _ _ _ _ _ _ _ Hobs Hi HSi)
      as (out & row & n & Hm & Hr & Hw).
    apply read_prediction_row in Hr as (Hrow & x & Hx & Hn).
    apply py_int_finite in Hn as (q & -> & Hq).
    exists out, row, q, n. subst n.
    destruct (quot_truncates q) as [Hpos Hneg].
    repeat (split; [done|]). done.
  - intros Hne. split.
    + by apply (loop_obs_window_length _ _ _ _ _ _ _ _ _ Hobs Hne Hi).
    + by apply (loop_obs_window_length _ _ _ _ _ _ _ _ _ Hobs Hne HSi).
Qed.

(** C6 at the first two steps of the stub model: 3.5 is fed back as 3. *)
Lemma window_slides_witness :
  (∃ out row q n,
      stub_model [1; 2; 4] (two_hot 3 13) = Returned out
      ∧ py_index out 0 = Ok row
      ∧ py_index row 0 = Ok (FFinite q)
      ∧ n = Z.quot (Qnum q) (Z.pos (Qden q))
      ∧ (0 <= q → inject_Z n <= q ∧ q < inject_Z (n + 1))%Q
      ∧ (q <= 0 → inject_Z (n - 1) < q ∧ q <= inject_Z n)%Q
      ∧ [2; 4; 3] = drop 1 [1; 2; 4] ++ [n])
  ∧ ([1; 2; 4] ≠ [] → length [1; 2; 4] = length [1; 2; 4]
                      ∧ length [2; 4; 3] = length [1; 2; 4]).
Proof.
  apply (window_slides stub_model [1; 2; 4] (mkdate 2021 3 1) 2 []
           [EvModelPredict [1; 2; 4] (two_hot 3 13);
            EvModelPredict [2; 4; 3] (two_hot 3 14)]
           (Ok [[FFinite (7 # 2); FFinite (9 # 1)]; [FFinite (9 # 2); FFinite (9 # 1)]])
           0%nat [1; 2; 4] (two_hot 3 13) [2; 4; 3] (two_hot 3 14));
    reflexivity.
Defined.

(** C4, amended: [get_predictions] does not compare the seed with any
    required length.  For a seed of any length, whenever every requested
    day has a calendar feature and the model answers every call with a
    non-empty first row that starts with a finite number, the run returns
    one prediction per requested day, and its first model call received
    the seed exactly as it was given.  In [predict] the seed is the last
    30 entries of a sorted series that always has 30 entries. *)
Theorem seed_is_not_checked model data0 start H t :
  (∀ i, (i < Z.to_nat H)%nat → ∃ oh, calendar_of start i = Ok oh) →
  (∀ w c, ∃ x row out n, model w c = Returned ((x :: row) :: out) ∧ py_int x = Ok n) →
  (∃ evs preds,
     get_predictions model data0 start H t = (t ++ evs, Ok preds)
     ∧ length preds = Z.to_nat H
     ∧ length evs = Z.to_nat H
     ∧ ∀ e, evs !! 0%nat = Some e → ∃ c, e = EvModelPredict data0 c)
  ∧ ∀ referral_data historic_start sorted,
      sort_referral_data referral_data historic_start
        (Z.max ML_PADDING_LENGTH SIM_PADDING_LENGTH) = Ok sorted →
      Z.of_nat (length (py_slice_from sorted (- ML_PADDING_LENGTH)))
      = ML_PADDING_LENGTH.
Proof.
  intros Hcal Hmodel. split.
  - destruct (forecast_loop_returns model start (py_range H)
                {| predictions := []; data := data0 |} t)
      as (evs & st' & Hrun & Hlen & Hp); [|done|].
    { intros k Hk. apply Hcal. by apply py_range_elem. }
    destruct (forecast_loop_obs model start (py_range H)
                {| predictions := []; data := data0 |} t)
      as (evs0 & r0 & Hrun0 & Hobs).
    rewrite Hrun in Hrun0. injection Hrun0 as Hevs _.
    apply app_inv_head in Hevs. subst evs0.
    exists evs, (predictions st'). unfold get_predictions, bind. rewrite Hrun.
    unfold py_range in Hlen, Hp. rewrite length_seq in Hlen, Hp. cbn [predictions length] in Hp.
    split; [done|]. split; [by rewrite Hp|]. split; [done|].
    intros e He. destruct evs as [|ev evs']; [discriminate|]. injection He as ->.
    apply loop_obs_head in Hobs as (? & ? & c & _ & _ & ->). by exists c.
  - intros referral_data historic_start sorted Hs.
    unfold sort_referral_data in Hs.
    destruct (res_map _ _) as [date_list|e] eqn:Hd; [|discriminate].
    cbn [rbind] in Hs. apply Ok_inj in Hs. subst sorted.
    apply res_map_lookup in Hd as [Hlen _].
    unfold py_slice_from. rewrite length_drop, length_map, Hlen.
    unfold py_range. rewrite length_seq. unfold ML_PADDING_LENGTH, SIM_PADDING_LENGTH.
    destruct (Z.ltb_spec (- (30)) 0); lia.
Qed.

(** C4, amended, at a seed of three counts. *)
Lemma seed_is_not_checked_witness :
  (∃ evs preds,
     get_predictions stub_model [1; 2; 4] (mkdate 2021 3 1) 2 [] = ([] ++ evs, Ok preds)
     ∧ length preds = Z.to_nat 2
     ∧ length evs = Z.to_nat 2
     ∧ ∀ e, evs !! 0%nat = Some e → ∃ c, e = EvModelPredict [1; 2; 4] c)
  ∧ ∀ referral_data historic_start sorted,
      sort_referral_data referral_data historic_start
        (Z.max ML_PADDING_LENGTH SIM_PADDING_LENGTH) = Ok sorted →
      Z.of_nat (length (py_slice_from sorted (- ML_PADDING_LENGTH)))
      = ML_PADDING_LENGTH.
Proof.
  apply (seed_is_not_checked stub_model [1; 2; 4] (mkdate 2021 3 1) 2 []).
  - intros i Hi.
    destruct i as [|[|i]]; [eexists; reflexivity..|simpl in Hi; lia].
  - intros w c. by exists (FFinite (py_sum w # 2)), [FFinite (9 # 1)], [],
      (Z.quot (py_sum w) 2).
Defined.

(** C7, counterexample: a window of three days that starts on 30 December
    9999 has no third day; the call raises instead of returning three
    zeros, also for an empty list of referrals. *)
Lemma sort_referral_data_past_last_day :
  valid_date (mkdate 9999 12 30) = true
  ∧ sort_referral_data [] (mkdate 9999 12 30) 3 = Error OverflowError.
Proof. split; reflexivity. Qed.

Example strftime_short_year : strftime (mkdate 999 12 31) = "999-12-31"%string.
Proof. reflexivity. Qed.
